(** * vxLuaGlue: the bridge between Lua scripts and the VxWorks symbol table

    A shallow embedding of [vxLuaGlue.c]: the four entry points registered
    with Lua ([vxDo], [vxGet], [vxSet], [vxReadLine]) are written in a small
    state-and-undefined-behaviour monad over the Lua stack, the native memory
    and a log of the externally visible actions (symbol-table queries,
    console output, native invocations, loads and stores).

    The build modelled is the one the file configures: [LEADING_UNDERSCORE]
    and [VERBOSE] are both [#undef]ined, [LUA_5_1] is defined. *)

From Stdlib Require Import ZArith QArith String Ascii List Bool Lia.
Import ListNotations.

Local Open Scope Z_scope.

(** ** Native words *)

Module Word.

(** [unsigned int] and [int32_t] are 32 bits wide on the targets of the
    file (x86 and MIPS VxWorks). *)
Definition modulus : Z := 2 ^ 32.
Definition INT32_MIN : Z := - 2 ^ 31.
Definition INT32_MAX : Z := 2 ^ 31 - 1.
Definition UINT_MAX : Z := 2 ^ 32 - 1.

(** Conversion of an integer value to [unsigned int]: reduction modulo
    2^32. *)
Definition to_uint (z : Z) : Z := z mod modulus.

(** Conversion of an integer value to [int]: the representative of the
    class modulo 2^32 that lies in the signed range. *)
Definition to_int (z : Z) : Z :=
  let u := to_uint z in
  if u <=? INT32_MAX then u else u - modulus.

End Word.

(** ** Lua numbers

    [lua_Number] is [double].  A finite double denotes a rational; the
    bridge only converts numbers to and from integers, so the finite ones
    are carried as the rational they denote. *)

Inductive lua_Number : Type :=
| Finite (q : Q)
| PosInf
| NegInf
| NaN.

(** The integral part of a rational, rounding toward zero. *)
Definition Qtrunc (q : Q) : Z := Z.quot (Qnum q) (Zpos (Qden q)).

(** Conversion of a [double] to an integer type with the range [lo..hi]:
    the fractional part is discarded.  When the integral part is outside
    the range (or the number is not finite) C leaves the result open and
    the target's conversion delivers a word of its own choosing, [invalid]. *)
Definition double_to_integer (lo hi : Z) (invalid : Z) (d : lua_Number) : Z :=
  match d with
  | Finite q =>
      let t := Qtrunc q in
      if (lo <=? t) && (t <=? hi) then t else invalid
  | _ => invalid
  end.

(** Conversion of an integer to [double] is exact for 32-bit values. *)
Definition double_of_Z (z : Z) : lua_Number := Finite (inject_Z z).

(** ** C strings and character buffers *)

Definition NUL : ascii := "000"%char.
Definition LF : ascii := "010"%char.
Definition DQUOTE : ascii := "034"%char.

(** What a C function sees behind a [const char *] into Lua string data:
    the characters before the first NUL (Lua strings may contain NULs and
    are always followed by one). *)
Fixpoint c_str (s : string) : string :=
  match s with
  | EmptyString => EmptyString
  | String c r => if Ascii.eqb c NUL then EmptyString else String c (c_str r)
  end.

Definition strlen (s : string) : nat := String.length (c_str s).

(** [strncpy(dst, src, n)] seen as the [n] characters it writes: the
    characters of [src] up to its terminator, then NUL padding. *)
Fixpoint strncpy (src : string) (n : nat) : list ascii :=
  match n with
  | O => []
  | S n' =>
      match src with
      | EmptyString => NUL :: strncpy EmptyString n'
      | String c r =>
          if Ascii.eqb c NUL then NUL :: strncpy EmptyString n'
          else c :: strncpy r n'
      end
  end.

(** [buf[k] = c] on a character array. *)
Fixpoint poke (buf : list ascii) (k : nat) (c : ascii) : list ascii :=
  match buf, k with
  | [], _ => []
  | _ :: r, O => c :: r
  | x :: r, S k' => x :: poke r k' c
  end.

(** Reading a character array as a C string; [None] when the array holds
    no terminator (the read would run past its end). *)
Fixpoint string_of_buffer (buf : list ascii) : option string :=
  match buf with
  | [] => None
  | c :: r =>
      if Ascii.eqb c NUL then Some EmptyString
      else match string_of_buffer r with
           | Some s => Some (String c s)
           | None => None
           end
  end.

(** The first [n] characters of a string. *)
Fixpoint string_prefix (n : nat) (s : string) : string :=
  match n, s with
  | O, _ => EmptyString
  | _, EmptyString => EmptyString
  | S n', String c r => String c (string_prefix n' r)
  end.

(** ** The symbol table ([symLib], [sysSymTbl]) *)

(** The symbol categories of [a_out.h] that the target loader enters. *)
Inductive SYM_TYPE : Type := N_ABS | N_TEXT | N_DATA | N_BSS.

Record SYMBOL : Type := mkSymbol {
  sym_name : string;
  sym_value : Z;
  sym_type : SYM_TYPE
}.

Definition SYMTAB : Type := list SYMBOL.

(** [symFindByName]: the entry registered under exactly this name. *)
Fixpoint symFind (tbl : SYMTAB) (name : string) : option SYMBOL :=
  match tbl with
  | [] => None
  | s :: r => if String.eqb (sym_name s) name then Some s else symFind r name
  end.

Definition is_code (s : SYMBOL) : bool :=
  match sym_type s with N_TEXT => true | _ => false end.

Definition is_data (s : SYMBOL) : bool :=
  match sym_type s with N_DATA | N_BSS => true | _ => false end.

(** ** Lua values and the part of the Lua 5.1 C API the bridge uses *)

Inductive TValue : Type :=
| TNil
| TBoolean (b : bool)
| TLightUserdata (p : Z)
| TNumber (n : lua_Number)
| TString (s : string)
| TTable (p : Z)
| TFunction (isC : bool) (p : Z)
| TUserdata (p : Z)
| TThread (p : Z).

Inductive lua_tag : Type :=
| LUA_TNONE | LUA_TNIL | LUA_TBOOLEAN | LUA_TLIGHTUSERDATA | LUA_TNUMBER
| LUA_TSTRING | LUA_TTABLE | LUA_TFUNCTION | LUA_TUSERDATA | LUA_TTHREAD.

Definition ttype (v : TValue) : lua_tag :=
  match v with
  | TNil => LUA_TNIL
  | TBoolean _ => LUA_TBOOLEAN
  | TLightUserdata _ => LUA_TLIGHTUSERDATA
  | TNumber _ => LUA_TNUMBER
  | TString _ => LUA_TSTRING
  | TTable _ => LUA_TTABLE
  | TFunction _ _ => LUA_TFUNCTION
  | TUserdata _ => LUA_TUSERDATA
  | TThread _ => LUA_TTHREAD
  end.

Definition lua_tag_eqb (a b : lua_tag) : bool :=
  match a, b with
  | LUA_TNONE, LUA_TNONE | LUA_TNIL, LUA_TNIL | LUA_TBOOLEAN, LUA_TBOOLEAN
  | LUA_TLIGHTUSERDATA, LUA_TLIGHTUSERDATA | LUA_TNUMBER, LUA_TNUMBER
  | LUA_TSTRING, LUA_TSTRING | LUA_TTABLE, LUA_TTABLE
  | LUA_TFUNCTION, LUA_TFUNCTION | LUA_TUSERDATA, LUA_TUSERDATA
  | LUA_TTHREAD, LUA_TTHREAD => true
  | _, _ => false
  end.

(** What the bridge takes from its surroundings and cannot see into: the
    Lua core's conversions between strings and numbers, where Lua keeps the
    characters of a string, the native code behind an address, and the
    console line reader. *)
Record Platform : Type := mkPlatform {
  (** [luaO_str2d]: the number a string converts to, if it is numeric. *)
  luaO_str2d : string -> option lua_Number;
  (** [lua_number2str]: the text of a number ([LUAI_NUMFFORMAT]). *)
  lua_number2str : lua_Number -> string;
  (** The address of the characters of a Lua string (strings are interned
      in Lua 5.1: one copy per content). *)
  getstr : string -> Z;
  (** Calling the native code at an address with fifteen words, in a
      memory: the value it leaves as its [int] result and the memory
      afterwards. *)
  native : Z -> list Z -> (Z -> Z) -> Z * (Z -> Z);
  (** [sal_readline]: the line typed after a prompt. *)
  sal_readline : string -> string;
  (** What the target's double-to-integer conversion delivers for a number
      whose integral part is not an [int32_t], respectively not an
      [unsigned int]. *)
  invalid_int32 : lua_Number -> Z;
  invalid_uint : lua_Number -> Z
}.

(** ** Observable actions and the state the entry points run in *)

Inductive event : Type :=
| EvSymFind (name : string)
| EvPrintf (text : string)
| EvInvoke (addr : Z) (args : list Z)
| EvLoad (addr : Z)
| EvStore (addr : Z) (v : Z)
| EvReadline (prompt : string).

Record state : Type := mkState {
  lua_stack : list TValue;
  (** The [unsigned int] object at each address. *)
  memory : Z -> Z;
  events : list event
}.

(** The ways in which the C text leaves its behaviour undefined. *)
Inductive undefined : Type :=
| NameBufferOverrun
| ArgIndexOutOfBounds
| NullPointer
| UninitialisedRead
| UnterminatedBuffer.

Inductive result (A : Type) : Type :=
| Done (a : A) (s : state)
| Undefined (u : undefined).

Arguments Done {A} a s.
Arguments Undefined {A} u.

Definition M (A : Type) : Type := state -> result A.

Definition ret {A} (a : A) : M A := fun s => Done a s.

Definition bind {A B} (m : M A) (k : A -> M B) : M B :=
  fun s => match m s with
           | Done a s' => k a s'
           | Undefined u => Undefined u
           end.

Definition undef {A} (u : undefined) : M A := fun _ => Undefined u.

Declare Scope glue_scope.
Delimit Scope glue_scope with glue.
Notation "x <- m ;; k" := (bind m (fun x => k))
  (at level 61, m at next level, right associativity) : glue_scope.
Notation "m ;; k" := (bind m (fun _ => k))
  (at level 61, right associativity) : glue_scope.

Definition log (e : event) : M unit :=
  fun s => Done tt (mkState (lua_stack s) (memory s) (events s ++ [e])).

Definition query {A} (f : list TValue -> A) : M A :=
  fun s => Done (f (lua_stack s)) s.

Definition lift_option {A} (u : undefined) (o : option A) : M A :=
  match o with Some a => ret a | None => undef u end.

(** ** The entry points *)

Section Glue.

Variable P : Platform.

(** The process-wide symbol table the lookups go to. *)
Variable sysSymTbl : SYMTAB.

Local Open Scope glue_scope.

(** [(int32_t) d] *)
Definition double_to_int32 (d : lua_Number) : Z :=
  double_to_integer Word.INT32_MIN Word.INT32_MAX
    (Word.to_int (invalid_int32 P d)) d.

(** [unsigned int x = d] *)
Definition double_to_uint (d : lua_Number) : Z :=
  double_to_integer 0 Word.UINT_MAX (Word.to_uint (invalid_uint P d)) d.

(** *** Lua API, on a stack whose positions count from 1 *)

(** [index2adr]: the value at a position, or nothing beyond the top. *)
Definition index2adr (L : list TValue) (i : nat) : option TValue :=
  match i with
  | O => None
  | S j => nth_error L j
  end.

Definition lua_type (L : list TValue) (i : nat) : lua_tag :=
  match index2adr L i with
  | Some v => ttype v
  | None => LUA_TNONE
  end.

Definition lua_gettop : M nat := query (fun L => List.length L).

Definition lua_isnil (i : nat) : M bool :=
  query (fun L => lua_tag_eqb (lua_type L i) LUA_TNIL).

Definition lua_isboolean (i : nat) : M bool :=
  query (fun L => lua_tag_eqb (lua_type L i) LUA_TBOOLEAN).

(** The conversion behind [lua_tonumber] and [lua_isnumber]: a number is
    itself, a string is the number it converts to, if any. *)
Definition tonumber (v : option TValue) : option lua_Number :=
  match v with
  | Some (TNumber n) => Some n
  | Some (TString s) => luaO_str2d P s
  | _ => None
  end.

(** [lua_tonumber]: 0 where there is no conversion. *)
Definition number_at (L : list TValue) (i : nat) : lua_Number :=
  match tonumber (index2adr L i) with
  | Some n => n
  | None => double_of_Z 0
  end.

Definition lua_tonumber (i : nat) : M lua_Number :=
  query (fun L => number_at L i).

(** [lua_isnumber]: 1 for a number and for a string convertible to a
    number. *)
Definition lua_isnumber (i : nat) : M bool :=
  query (fun L => match tonumber (index2adr L i) with
                  | Some _ => true
                  | None => false
                  end).

(** [lua_isstring]: 1 for a string and for a number (a number always
    converts to a string). *)
Definition lua_isstring (i : nat) : M bool :=
  query (fun L => lua_tag_eqb (lua_type L i) LUA_TSTRING
                  || lua_tag_eqb (lua_type L i) LUA_TNUMBER).

(** [lua_tostring]: the characters of a string, the text of a number,
    NULL for everything else.  (Lua also replaces a number on the stack by
    its text; no entry point reads that position again.) *)
Definition lua_tostring (i : nat) : M (option string) :=
  query (fun L => match index2adr L i with
                  | Some (TString s) => Some s
                  | Some (TNumber n) => Some (lua_number2str P n)
                  | _ => None
                  end).

(** [lua_toboolean]: 0 for [nil], [false] and an empty position. *)
Definition lua_toboolean (i : nat) : M Z :=
  query (fun L => match index2adr L i with
                  | None | Some TNil | Some (TBoolean false) => 0
                  | Some _ => 1
                  end).

Definition lua_istable (i : nat) : M bool :=
  query (fun L => lua_tag_eqb (lua_type L i) LUA_TTABLE).

Definition lua_isfunction (i : nat) : M bool :=
  query (fun L => lua_tag_eqb (lua_type L i) LUA_TFUNCTION).

Definition lua_iscfunction (i : nat) : M bool :=
  query (fun L => match index2adr L i with
                  | Some (TFunction true _) => true
                  | _ => false
                  end).

Definition lua_isuserdata (i : nat) : M bool :=
  query (fun L => lua_tag_eqb (lua_type L i) LUA_TUSERDATA
                  || lua_tag_eqb (lua_type L i) LUA_TLIGHTUSERDATA).

Definition lua_islightuserdata (i : nat) : M bool :=
  query (fun L => lua_tag_eqb (lua_type L i) LUA_TLIGHTUSERDATA).

Definition lua_push (v : TValue) : M unit :=
  fun s => Done tt (mkState (lua_stack s ++ [v]) (memory s) (events s)).

Definition lua_pushnumber (n : lua_Number) : M unit := lua_push (TNumber n).

Definition lua_pushstring (s : string) : M unit := lua_push (TString (c_str s)).

(** *** The C library and VxWorks calls *)

(** [strcpy(dst, src)] into a buffer of [cap] bytes: the characters and
    the terminator must fit. *)
Definition strcpy (cap : nat) (src : string) : M string :=
  if (strlen src <? cap)%nat then ret (c_str src)
  else undef NameBufferOverrun.

(** [strcat(dst, src)] onto the C string [dst] held in [cap] bytes. *)
Definition strcat (cap : nat) (dst src : string) : M string :=
  if (String.length dst + strlen src <? cap)%nat
  then ret (dst ++ c_str src)%string
  else undef NameBufferOverrun.

Definition printf (text : string) : M unit := log (EvPrintf text).

Definition symFindByName (name : string) : M (option SYMBOL) :=
  log (EvSymFind name) ;; ret (symFind sysSymTbl name).

(** [*((unsigned int* )p)] *)
Definition load (p : Z) : M Z :=
  log (EvLoad p) ;; (fun s => Done (memory s p) s).

(** [((unsigned int* )p)[0] = v] *)
Definition store (p v : Z) : M unit :=
  log (EvStore p v) ;;
  (fun s => Done tt (mkState (lua_stack s)
                       (fun a => if a =? p then v else memory s a)
                       (events s))).

(** [( *function_address)(arg[0], ..., arg[14])], the result taken as
    [int]. *)
Definition invoke (addr : Z) (arg : list Z) : M Z :=
  log (EvInvoke addr arg) ;;
  (fun s => Done (Word.to_int (fst (native P addr arg (memory s))))
              (mkState (lua_stack s)
                 (snd (native P addr arg (memory s)))
                 (events s))).

(** [arg[k] = v] on the argument array. *)
Definition array_store (arg : list Z) (k : nat) (v : Z) : M (list Z) :=
  if (k <? List.length arg)%nat
  then ret (firstn k arg ++ v :: skipn (S k) arg)
  else undef ArgIndexOutOfBounds.

(** *** [l_ExecuteLuaCommand] (registered as [vxDo]) *)

(** The initial contents of [symbol_name]: the words [no function]
    between double quotes. *)
Definition no_function : string :=
  String DQUOTE ("no function" ++ String DQUOTE EmptyString).

(** The word the body of the argument loop assigns to [arg[i-2]]. *)
Definition marshal_argument (i : nat) : M Z :=
  isnil <- lua_isnil i ;;
  if isnil then ret 0
  else
    isbool <- lua_isboolean i ;;
    if isbool then
      b <- lua_toboolean i ;; ret (Word.to_uint (Word.to_int b))
    else
      isnum <- lua_isnumber i ;;
      if isnum then
        d <- lua_tonumber i ;; ret (Word.to_uint (double_to_int32 d))
      else
        isstr <- lua_isstring i ;;
        if isstr then
          s <- lua_tostring i ;;
          ret (match s with
               | Some s => Word.to_uint (getstr P s)
               | None => 0
               end)
        else
          istable <- lua_istable i ;;
          if istable then ret 0
          else
            isfun <- lua_isfunction i ;;
            if isfun then ret 0
            else
              iscfun <- lua_iscfunction i ;;
              if iscfun then ret 0
              else
                isud <- lua_isuserdata i ;;
                if isud then ret 0
                else
                  islud <- lua_islightuserdata i ;;
                  if islud then ret 0
                  else ret 0.

(** [for (i = ...; i <= nArgs; i++)] with [n] iterations still to run. *)
Fixpoint process_arguments (n i : nat) (arg : list Z) : M (list Z) :=
  match n with
  | O => ret arg
  | S n' =>
      v <- marshal_argument i ;;
      arg' <- array_store arg (i - 2) v ;;
      process_arguments n' (S i) arg'
  end.

Definition l_ExecuteLuaCommand : M nat :=
  (* Clear argument list *)
  let arg := repeat 0 15 in
  nArgs <- lua_gettop ;;
  (* Clip to max 15 args *)
  let nArgs := if (15 <? nArgs)%nat then 15%nat else nArgs in
  (* First argument is always the function name *)
  symName <- (if (1 <=? nArgs)%nat then
                isstr <- lua_isstring 1 ;;
                if isstr then lua_tostring 1 else ret None
              else ret None) ;;
  (* Process the function arguments: i = 2 .. nArgs *)
  arg <- process_arguments (nArgs - 1) 2 arg ;;
  symbol_name <- match symName with
                 | Some s => strcpy 128 s
                 | None => ret no_function
                 end ;;
  found <- symFindByName symbol_name ;;
  match found with
  | Some sym =>
      function_status <- invoke (sym_value sym) arg ;;
      lua_pushnumber (double_of_Z function_status) ;;
      ret 1%nat
  | None =>
      printf ("Error: Function " ++ symbol_name
              ++ " does not exist!" ++ String LF EmptyString) ;;
      ret 0%nat
  end.

(** *** [l_vxGet] and [l_vxSet] *)

Definition no_global_variable : string :=
  String DQUOTE ("no global variable." ++ String DQUOTE EmptyString).

Definition l_vxGet : M nat :=
  nArgs <- lua_gettop ;;
  (* First argument is always the function name *)
  name_error <- (if (1 <=? nArgs)%nat then
                   isstr <- lua_isstring 1 ;;
                   if isstr then
                     symName <- lua_tostring 1 ;; ret (symName, 0)
                   else ret (None, 1)
                 else ret (None, 1)) ;;
  let '(symName, error) := name_error in
  if error =? 0 then
    symbol_name <- match symName with
                   | Some s => strcpy 128 s
                   | None => ret no_global_variable
                   end ;;
    found <- symFindByName symbol_name ;;
    match found with
    | Some sym =>
        v <- load (sym_value sym) ;;
        lua_pushnumber (double_of_Z v) ;;
        ret 1%nat
    | None =>
        (* Try again with underscore *)
        symbol_name <- strcpy 128 "_" ;;
        name <- lift_option NullPointer symName ;;
        symbol_name <- strcat 128 symbol_name name ;;
        found <- symFindByName symbol_name ;;
        match found with
        | Some sym =>
            v <- load (sym_value sym) ;;
            lua_pushnumber (double_of_Z v) ;;
            ret 1%nat
        | None =>
            printf ("Error: Symbol " ++ symbol_name
                    ++ " does not exist!" ++ String LF EmptyString) ;;
            ret 0%nat
        end
    end
  else ret 0%nat.

Definition l_vxSet : M nat :=
  nArgs <- lua_gettop ;;
  (* First argument is always the function name *)
  name_error <- (if (1 <=? nArgs)%nat then
                   isstr <- lua_isstring 1 ;;
                   if isstr then
                     symName <- lua_tostring 1 ;; ret (symName, 0)
                   else ret (None, 1)
                 else ret (None, 1)) ;;
  let '(symName, error) := name_error in
  let error := if (nArgs <? 2)%nat then 1 else error in
  if error =? 0 then
    symbol_name <- match symName with
                   | Some s => strcpy 128 s
                   | None => ret no_global_variable
                   end ;;
    found <- symFindByName symbol_name ;;
    match found with
    | Some sym =>
        d <- lua_tonumber 2 ;;
        store (sym_value sym) (double_to_uint d) ;;
        ret 0%nat
    | None =>
        (* Try again with underscore *)
        symbol_name <- strcpy 128 "_" ;;
        name <- lift_option NullPointer symName ;;
        symbol_name <- strcat 128 symbol_name name ;;
        found <- symFindByName symbol_name ;;
        match found with
        | Some sym =>
            d <- lua_tonumber 2 ;;
            store (sym_value sym) (double_to_uint d) ;;
            ret 0%nat
        | None =>
            printf ("Error: Symbol " ++ symbol_name
                    ++ " does not exist!" ++ String LF EmptyString) ;;
            ret 0%nat
        end
    end
  else ret 0%nat.

(** *** [l_vxReadLine] *)

Definition l_vxReadLine : M nat :=
  nArgs <- lua_gettop ;;
  (* [pArg] and [error] hold a value only on the branches that assign it *)
  pArg_error <- (if (1 <=? nArgs)%nat then
                   isstr <- lua_isstring 1 ;;
                   if isstr then
                     pArg <- lua_tostring 1 ;; ret (Some pArg, Some 0)
                   else ret (None, None)
                 else ret (None, Some 1)) ;;
  let '(pArg, error) := pArg_error in
  error <- lift_option UninitialisedRead error ;;
  if error =? 0 then
    pArg <- lift_option UninitialisedRead pArg ;;
    pArg <- lift_option NullPointer pArg ;;
    let prompt := strncpy pArg 128 in
    let prompt := poke prompt 127 NUL in
    prompt <- lift_option UnterminatedBuffer (string_of_buffer prompt) ;;
    log (EvReadline prompt) ;;
    lua_pushstring (sal_readline P prompt) ;;
    ret 1%nat
  else ret 0%nat.

(** *** What a script sees of a call *)

(** An entry point returns the number of results it left on top of the
    stack; Lua hands exactly those to the script. *)
Inductive outcome : Type :=
| Returns (values : list TValue) (mem : Z -> Z) (evs : list event)
| Crashes (u : undefined).

Definition run (f : M nat) (s : state) : outcome :=
  match f s with
  | Done n s' =>
      Returns (skipn (List.length (lua_stack s') - n) (lua_stack s'))
        (memory s') (events s')
  | Undefined u => Crashes u
  end.

(** *** The marshalling rule, by dynamic type

    What the chain of tests in the argument loop comes to for a value:
    used to state what the loop leaves in the argument array. *)
Definition slot_of (v : TValue) : Z :=
  match v with
  | TNil => 0
  | TBoolean b => if b then 1 else 0
  | TNumber n => Word.to_uint (double_to_int32 n)
  | TString s =>
      match luaO_str2d P s with
      | Some n => Word.to_uint (double_to_int32 n)
      | None => Word.to_uint (getstr P s)
      end
  | _ => 0
  end.

(** The fifteen words of an invocation whose leading slots are [zs]. *)
Definition argument_vector (zs : list Z) : list Z :=
  zs ++ repeat 0 (15 - List.length zs).

(** The name a call looks up: the C string of the first value if that is
    a string or a number, the initial buffer contents otherwise. *)
Definition name_of (L : list TValue) : option string :=
  match L with
  | TString s :: _ => Some s
  | TNumber n :: _ => Some (lua_number2str P n)
  | _ => None
  end.

(** The name [vxDo] hands to [symFindByName]. *)
Definition target_name (L : list TValue) : string :=
  match name_of L with
  | Some s => c_str s
  | None => no_function
  end.

(** The text of the two diagnostics. *)
Definition function_not_found (name : string) : string :=
  ("Error: Function " ++ name ++ " does not exist!" ++ String LF EmptyString)%string.

Definition symbol_not_found (name : string) : string :=
  ("Error: Symbol " ++ name ++ " does not exist!" ++ String LF EmptyString)%string.

End Glue.

(** ** A concrete target

    A platform and two symbol tables to run the entry points on: the table
    of an ELF target, where names are entered as written, and the table of
    an a.out target, where text and data names carry a leading underscore.
    The names are those of the test functions and the test variable at the
    end of [vxLuaGlue.c]. *)

Module Target.

Definition digit_value (c : ascii) : option Z :=
  let n := Z.of_nat (nat_of_ascii c) in
  if (48 <=? n) && (n <=? 57) then Some (n - 48) else None.

Fixpoint decimal_digits (acc : Z) (s : string) : option Z :=
  match s with
  | EmptyString => Some acc
  | String c r =>
      match digit_value c with
      | Some d => decimal_digits (10 * acc + d) r
      | None => None
      end
  end.

(** Plain decimal numerals, which Lua converts to the number they
    write. *)
Definition str2d (s : string) : option lua_Number :=
  match s with
  | EmptyString => None
  | _ => option_map double_of_Z (decimal_digits 0 s)
  end.

Fixpoint digits_of (fuel : nat) (n : Z) (acc : string) : string :=
  match fuel with
  | O => acc
  | S fuel' =>
      let acc' := String (ascii_of_nat (Z.to_nat (48 + n mod 10))) acc in
      if n <? 10 then acc' else digits_of fuel' (n / 10) acc'
  end.

(** The text of a number: decimal digits for a non-negative integer, as
    Lua prints it. *)
Definition number2str (n : lua_Number) : string :=
  match n with
  | Finite q =>
      let t := Qtrunc q in
      if t <? 0 then String "-" (digits_of 20 (- t) EmptyString)
      else digits_of 20 t EmptyString
  | PosInf => "inf"
  | NegInf => "-inf"
  | NaN => "nan"
  end.

Definition LuaStringTest_addr : Z := 4096.
Definition LuaDecimalTest_addr : Z := 4112.
Definition add_two_ints_addr : Z := 4128.
Definition LuaTestVariable_addr : Z := 8192.

(** Native code: [add_two_ints] returns the sum of its first two words;
    everything else returns 0.  None of it writes to memory. *)
Definition code (addr : Z) (arg : list Z) (m : Z -> Z) : Z * (Z -> Z) :=
  if addr =? add_two_ints_addr
  then (nth 0 arg 0 + nth 1 arg 0, m)
  else (0, m).

Definition platform : Platform :=
  {| luaO_str2d := str2d;
     lua_number2str := number2str;
     getstr := fun s => 1048576 + 256 * Z.of_nat (String.length s);
     native := code;
     sal_readline := fun _ => "print(1)"%string;
     invalid_int32 := fun _ => Word.INT32_MIN;
     invalid_uint := fun _ => 0 |}.

Definition elf_table : SYMTAB :=
  [ mkSymbol "LuaStringTest" LuaStringTest_addr N_TEXT;
    mkSymbol "LuaDecimalTest" LuaDecimalTest_addr N_TEXT;
    mkSymbol "add_two_ints" add_two_ints_addr N_TEXT;
    mkSymbol "LuaTestVariable" LuaTestVariable_addr N_BSS ].

Definition aout_table : SYMTAB :=
  [ mkSymbol "_LuaStringTest" LuaStringTest_addr N_TEXT;
    mkSymbol "_LuaDecimalTest" LuaDecimalTest_addr N_TEXT;
    mkSymbol "_add_two_ints" add_two_ints_addr N_TEXT;
    mkSymbol "_LuaTestVariable" LuaTestVariable_addr N_DATA ].

(** Memory with every word zero ([int LuaTestVariable=0;]). *)
Definition zeroed : Z -> Z := fun _ => 0.

Definition start (L : list TValue) : state := mkState L zeroed [].

Definition num (z : Z) : TValue := TNumber (double_of_Z z).

(** A name of [n] letters. *)
Fixpoint letters (n : nat) : string :=
  match n with
  | O => EmptyString
  | S n' => String "a" (letters n')
  end.

End Target.

(** ** The engine: start, run a script, stop

    [TSysStartLua], [TSysRunLuaScript] and [TSysStopLua] work on the
    file-level pointer [luaVM].  What they need of Lua is which states are
    open: every API call on a null pointer or on a state already closed is
    a fault.  [lua_open] returns what the allocator gives it, a state or
    NULL; the script run by [luaL_dofile] is not looked into. *)

Module Engine.

(** The functions of the command table. *)
Inductive wrap_func : Type :=
| myLuaFunction
| ExecuteLuaCommand
| vxSet
| vxGet
| vxReadLine.

(** [lua_command_info]; either field may be the null pointer. *)
Record lua_command_info : Type := mkCommand {
  cmd_name : option string;
  cmd_wrapper : option wrap_func
}.

(** [lua_commands], closed by the entry [{0,0}]. *)
Definition lua_commands : list lua_command_info :=
  [ mkCommand (Some "myLuaFunction"%string) (Some myLuaFunction);
    mkCommand (Some "vxDo"%string) (Some ExecuteLuaCommand);
    mkCommand (Some "vxSet"%string) (Some vxSet);
    mkCommand (Some "vxGet"%string) (Some vxGet);
    mkCommand (Some "vxReadLine"%string) (Some vxReadLine);
    mkCommand None None ].

Inductive action : Type :=
| AcOpen (L : option Z)
| AcOpenLibs (L : Z)
| AcRegister (L : Z) (name : string) (f : option wrap_func)
| AcClose (L : Z)
| AcDoFile (L : Z) (path : string)
| AcPrintf (text : string).

Inductive fault : Type :=
| NullState
| ClosedState
| PastTheTable.

Record host : Type := mkHost {
  (** [static lua_State *luaVM] *)
  luaVM : option Z;
  (** The states opened and not closed since. *)
  open_states : list Z;
  (** The global functions set in each state, the latest first. *)
  globals : list (Z * (string * option wrap_func));
  actions : list action
}.

(** The host before anything ran: [luaVM=NULL]. *)
Definition initial : host := mkHost None [] [] [].

Inductive hresult (A : Type) : Type :=
| Ok (a : A) (h : host)
| Fault (f : fault).

Arguments Ok {A} a h.
Arguments Fault {A} f.

Definition H (A : Type) : Type := host -> hresult A.

Definition hret {A} (a : A) : H A := fun h => Ok a h.

Definition hbind {A B} (f : H A) (k : A -> H B) : H B :=
  fun h => match f h with
           | Ok a h' => k a h'
           | Fault x => Fault x
           end.

Declare Scope engine_scope.
Delimit Scope engine_scope with engine.
Notation "x <- m ;; k" := (hbind m (fun x => k))
  (at level 61, m at next level, right associativity) : engine_scope.
Notation "m ;; k" := (hbind m (fun _ => k))
  (at level 61, right associativity) : engine_scope.

Local Open Scope engine_scope.

Definition act (a : action) : H unit :=
  fun h => Ok tt (mkHost (luaVM h) (open_states h) (globals h)
                    (actions h ++ [a])).

Definition get_luaVM : H (option Z) := fun h => Ok (luaVM h) h.

Definition set_luaVM (L : option Z) : H unit :=
  fun h => Ok tt (mkHost L (open_states h) (globals h) (actions h)).

Definition is_open (h : host) (L : Z) : bool :=
  existsb (Z.eqb L) (open_states h).

(** What every API function does first with its [lua_State *]: use it. *)
Definition use_state (L : option Z) : H Z :=
  fun h => match L with
           | None => Fault NullState
           | Some p => if is_open h p then Ok p h else Fault ClosedState
           end.

(** [lua_open()], given what the allocator returns. *)
Definition lua_open (fresh : option Z) : H (option Z) :=
  fun h => Ok fresh
             (mkHost (luaVM h)
                (match fresh with
                 | Some p => p :: open_states h
                 | None => open_states h
                 end)
                (globals h) (actions h ++ [AcOpen fresh])).

Definition luaL_openlibs (L : option Z) : H unit :=
  p <- use_state L ;; act (AcOpenLibs p).

Definition lua_register (L : option Z) (name : string)
           (f : option wrap_func) : H unit :=
  p <- use_state L ;;
  (fun h => Ok tt (mkHost (luaVM h) (open_states h)
                     ((p, (name, f)) :: globals h) (actions h))) ;;
  act (AcRegister p name f).

(** [lua_close]: the state and everything set in it are gone. *)
Definition lua_close (L : option Z) : H unit :=
  p <- use_state L ;;
  (fun h => Ok tt (mkHost (luaVM h)
                     (filter (fun q => negb (q =? p)) (open_states h))
                     (filter (fun g => negb (fst g =? p)) (globals h))
                     (actions h))) ;;
  act (AcClose p).

Definition luaL_dofile (L : option Z) (path : string) : H unit :=
  p <- use_state L ;; act (AcDoFile p path).

Definition printf (text : string) : H unit := act (AcPrintf text).



(** [for (i = 0; lua_commands[i].name; i++) lua_register(luaVM, ...)],
    from entry [i] on; a table without a closing entry is read past its
    end. *)
Fixpoint register_commands (cmds : list lua_command_info) : H unit :=
  match cmds with
  | [] => fun _ => Fault PastTheTable
  | c :: r =>
      match cmd_name c with
      | None => hret tt
      | Some name =>
          L <- get_luaVM ;;
          lua_register L name (cmd_wrapper c) ;;
          register_commands r
      end
  end.

Definition error_initializing : string :=
  ("Error Initializing lua" ++ String LF EmptyString)%string.

Definition not_initialized : string :=
  ("TSysRunLuaScript(): Lua not initialized!" ++ String LF EmptyString)%string.

Definition TSysStartLua (fresh : option Z) : H unit :=
  (* Open Lua *)
  L <- lua_open fresh ;;
  set_luaVM L ;;
  L <- get_luaVM ;;
  luaL_openlibs L ;;
  L <- get_luaVM ;;
  match L with
  | None => printf error_initializing
  | Some _ =>
      (* Register all commands *)
      register_commands lua_commands
  end.

Definition TSysStopLua : H unit :=
  L <- get_luaVM ;;
  match L with
  | Some _ => lua_close L
  | None => hret tt
  end.

Definition TSysRunLuaScript (luaScriptPath : string) : H unit :=
  L <- get_luaVM ;;
  match L with
  | Some _ => luaL_dofile L luaScriptPath
  | None => printf not_initialized
  end.

End Engine.

(** Unfolds the Lua API queries and the monad on a state given by its
    three components. *)
Ltac lua_api :=
  unfold lua_gettop, lua_isnil, lua_isboolean, lua_isnumber, lua_isstring,
    lua_tonumber, lua_tostring, lua_toboolean, lua_istable, lua_isfunction,
    lua_iscfunction, lua_isuserdata, lua_islightuserdata, lua_type,
    number_at, tonumber;
  unfold query, bind, ret;
  cbn [lua_stack memory events].

(** ** The concrete target at work *)

Example Target_str2d_123 : Target.str2d "123" = Some (double_of_Z 123).
Proof. reflexivity. Qed.

Example Target_number2str_42 : Target.number2str (double_of_Z 42) = "42"%string.
Proof. reflexivity. Qed.

Example vxDo_add_two_ints :
  run (l_ExecuteLuaCommand Target.platform Target.elf_table)
      (Target.start [TString "add_two_ints"; Target.num 2; Target.num 3])
  = Returns [Target.num 5] Target.zeroed
      [EvSymFind "add_two_ints";
       EvInvoke Target.add_two_ints_addr [2; 3; 0; 0; 0; 0; 0; 0; 0; 0; 0; 0; 0; 0; 0]].
Proof. reflexivity. Qed.

(** ** Lists and buffers *)

Lemma skipn_repeat_zero (n k : nat) :
  skipn k (repeat 0 n) = repeat 0 (n - k).
Proof.
  revert k; induction n as [|n IH]; intros [|k]; simpl; auto.
Qed.

Lemma firstn_after_store (arg : list Z) (k : nat) (v : Z) :
  (k < List.length arg)%nat ->
  firstn (S k) (firstn k arg ++ v :: skipn (S k) arg) = firstn k arg ++ [v].
Proof.
  revert k; induction arg as [|a arg IH]; intros k Hk; simpl in Hk; [lia|].
  destruct k as [|k]; [reflexivity|].
  change (firstn (S k) (a :: arg)) with (a :: firstn k arg).
  change (skipn (S (S k)) (a :: arg)) with (skipn (S k) arg).
  simpl app. rewrite firstn_cons. f_equal. apply IH. lia.
Qed.

Lemma skipn_after_store (arg : list Z) (k n : nat) (v : Z) :
  (k < List.length arg)%nat ->
  skipn (S k + n) (firstn k arg ++ v :: skipn (S k) arg) = skipn (S k + n) arg.
Proof.
  revert k; induction arg as [|a arg IH]; intros k Hk; simpl in Hk; [lia|].
  destruct k as [|k]; [reflexivity|].
  change (firstn (S k) (a :: arg)) with (a :: firstn k arg).
  change (skipn (S (S k)) (a :: arg)) with (skipn (S k) arg).
  simpl. apply IH. lia.
Qed.

Lemma length_after_store (arg : list Z) (k : nat) (v : Z) :
  (k < List.length arg)%nat ->
  List.length (firstn k arg ++ v :: skipn (S k) arg) = List.length arg.
Proof.
  intros Hk. rewrite length_app. cbn [List.length].
  rewrite length_firstn, length_skipn. lia.
Qed.

(** The buffer [strncpy] and the terminator leave reads back as the first
    [n] characters of the source C string. *)
Lemma string_of_truncated_buffer (src : string) (n : nat) :
  string_of_buffer (poke (strncpy src (S n)) n NUL)
  = Some (string_prefix n (c_str src)).
Proof.
  revert src; induction n as [|n IH]; intros src.
  - destruct src as [|c r]; simpl; [reflexivity|].
    destruct (Ascii.eqb c NUL); reflexivity.
  - destruct src as [|c r].
    + change (strncpy EmptyString (S (S n))) with (NUL :: strncpy EmptyString (S n)).
      reflexivity.
    + change (strncpy (String c r) (S (S n)))
        with (if Ascii.eqb c NUL then NUL :: strncpy EmptyString (S n)
              else c :: strncpy r (S n)).
      simpl c_str.
      destruct (Ascii.eqb c NUL) eqn:Hc; [reflexivity|].
      change (poke (c :: strncpy r (S n)) (S n) NUL)
        with (c :: poke (strncpy r (S n)) n NUL).
      cbn [string_of_buffer]. rewrite Hc, IH. reflexivity.
Qed.

Lemma string_prefix_length (n : nat) (s : string) :
  String.length (string_prefix n s) = Nat.min n (String.length s).
Proof.
  revert s; induction n as [|n IH]; intros [|c r]; simpl; auto.
Qed.

Lemma string_prefix_short (n : nat) (s : string) :
  (String.length s <= n)%nat -> string_prefix n s = s.
Proof.
  revert s; induction n as [|n IH]; intros [|c r]; simpl; intros H;
    try reflexivity; try lia.
  f_equal. apply IH. lia.
Qed.

(** ** The argument loop *)

Section Correctness.

Variable P : Platform.
Variable sysSymTbl : SYMTAB.

(** The chain of type tests assigns to a slot what [slot_of] says for the
    value at that stack position. *)
Lemma marshal_argument_slot (L : list TValue) (i : nat) (v : TValue)
      (m : Z -> Z) (e : list event) :
  index2adr L i = Some v ->
  marshal_argument P i (mkState L m e) = Done (slot_of P v) (mkState L m e).
Proof.
  intros Hv.
  unfold marshal_argument. lua_api.
  destruct v as [ | [|] | p | n | s | p | [|] p | p | p ];
    repeat (progress (cbn [lua_stack ttype lua_tag_eqb orb]; rewrite ?Hv));
    cbn [slot_of]; try reflexivity.
  destruct (luaO_str2d P s) eqn:Hs;
    repeat (progress (cbn [lua_stack ttype lua_tag_eqb orb]; rewrite ?Hv, ?Hs));
    reflexivity.
Qed.

(** The loop, started at stack position [k+2] with the values [vals]
    ahead of it, fills slots [k ..] with their words and touches nothing
    else. *)
Lemma process_arguments_fill (vals : list TValue) :
  forall (pre post : list TValue) (k : nat) (arg : list Z)
         (m : Z -> Z) (e : list event),
    List.length pre = S k ->
    List.length arg = 15%nat ->
    (k + List.length vals <= 15)%nat ->
    process_arguments P (List.length vals) (S (S k)) arg
      (mkState (pre ++ vals ++ post) m e)
    = Done (firstn k arg ++ map (slot_of P) vals
            ++ skipn (k + List.length vals) arg)
        (mkState (pre ++ vals ++ post) m e).
Proof.
  induction vals as [|v vs IH]; intros pre post k arg m e Hpre Harg Hk.
  - simpl. rewrite Nat.add_0_r, firstn_skipn. reflexivity.
  - cbn [List.length process_arguments]. unfold bind at 1.
    rewrite (marshal_argument_slot _ _ v).
    2:{ cbn [index2adr]. rewrite nth_error_app2 by lia.
        rewrite Hpre, Nat.sub_diag. reflexivity. }
    unfold bind at 1. unfold array_store.
    replace (S (S k) - 2)%nat with k by lia.
    cbn [List.length] in Hk.
    assert (Hlt : (k < List.length arg)%nat) by lia.
    apply Nat.ltb_lt in Hlt as Hltb. rewrite Hltb. unfold ret at 1.
    replace (pre ++ (v :: vs) ++ post) with ((pre ++ [v]) ++ vs ++ post)
      by (rewrite <- app_assoc; reflexivity).
    rewrite (IH (pre ++ [v]) post (S k)).
    + rewrite firstn_after_store by exact Hlt.
      rewrite skipn_after_store by exact Hlt.
      rewrite <- app_assoc. cbn [map app].
      replace (S k + List.length vs)%nat with (k + S (List.length vs))%nat by lia.
      reflexivity.
    + rewrite length_app. simpl. lia.
    + rewrite length_after_store by exact Hlt. exact Harg.
    + lia.
Qed.

(** ** The monad, one step at a time *)

Lemma bind_Done {A B : Type} (f : M A) (k : A -> M B) (s s' : state) (a : A) :
  f s = Done a s' -> bind f k s = k a s'.
Proof. intros H. unfold bind. rewrite H. reflexivity. Qed.

Lemma bind_Undefined {A B : Type} (f : M A) (k : A -> M B) (s : state)
      (u : undefined) :
  f s = Undefined u -> bind f k s = Undefined u.
Proof. intros H. unfold bind. rewrite H. reflexivity. Qed.

Lemma strcpy_fits (cap : nat) (src : string) (s : state) :
  (strlen src < cap)%nat -> strcpy cap src s = Done (c_str src) s.
Proof.
  intros H. unfold strcpy. apply Nat.ltb_lt in H. rewrite H. reflexivity.
Qed.

Lemma strcpy_overrun (cap : nat) (src : string) (s : state) :
  (cap <= strlen src)%nat -> strcpy cap src s = Undefined NameBufferOverrun.
Proof.
  intros H. unfold strcpy. apply Nat.ltb_ge in H. rewrite H. reflexivity.
Qed.

Lemma strcat_underscore_fits (src : string) (s : state) :
  (strlen src < 127)%nat ->
  strcat 128 "_" src s = Done (String "_" (c_str src)) s.
Proof.
  intros H. unfold strcat. cbn [String.length].
  assert (H' : (1 + strlen src < 128)%nat) by lia.
  apply Nat.ltb_lt in H'. rewrite H'. reflexivity.
Qed.

Lemma strcat_underscore_overrun (src : string) (s : state) :
  (127 <= strlen src)%nat ->
  strcat 128 "_" src s = Undefined NameBufferOverrun.
Proof.
  intros H. unfold strcat. cbn [String.length].
  assert (H' : (128 <= 1 + strlen src)%nat) by lia.
  apply Nat.ltb_ge in H'. rewrite H'. reflexivity.
Qed.

(** *** The prologue the entry points share

    [symName] is assigned exactly when the stack is not empty and its
    first value is a string or a number. *)
Lemma first_argument_name (L : list TValue) (m : Z -> Z) (e : list event)
      (n : nat) :
  (1 <=? n)%nat = (1 <=? List.length L)%nat ->
  (if (1 <=? n)%nat
   then bind (lua_isstring 1)
          (fun isstr => if isstr then lua_tostring P 1 else ret None)
   else ret None) (mkState L m e)
  = Done (name_of P L) (mkState L m e).
Proof.
  intros ->. destruct L as [|v rest]; [reflexivity|].
  destruct v; reflexivity.
Qed.

Lemma first_argument_name_error (L : list TValue) (m : Z -> Z)
      (e : list event) :
  (if (1 <=? List.length L)%nat
   then bind (lua_isstring 1)
          (fun isstr =>
             if isstr
             then bind (lua_tostring P 1) (fun symName => ret (symName, 0))
             else ret (None, 1))
   else ret (None, 1)) (mkState L m e)
  = Done (name_of P L, match name_of P L with Some _ => 0 | None => 1 end)
      (mkState L m e).
Proof.
  destruct L as [|v rest]; [reflexivity|].
  destruct v; reflexivity.
Qed.

(** *** The argument array of a call

    Whatever the stack, the loop stays inside the array and leaves in it
    the words of the values at positions 2 to 15, then zeros. *)
Lemma vxDo_argument_array (L : list TValue) (m : Z -> Z) (e : list event) :
  process_arguments P
    ((if (15 <? List.length L)%nat then 15%nat else List.length L) - 1)
    2 (repeat 0 15) (mkState L m e)
  = Done (argument_vector (map (slot_of P) (firstn 14 (tl L))))
      (mkState L m e).
Proof.
  destruct L as [|v rest]; [reflexivity|].
  cbn [tl].
  pose proof (process_arguments_fill (firstn 14 rest) [v] (skipn 14 rest)
                0%nat (repeat 0 15) m e) as H.
  rewrite firstn_skipn in H. cbn [app] in H.
  assert (Hlen : List.length (firstn 14 rest)
                 = ((if (15 <? List.length (v :: rest))%nat
                     then 15%nat else List.length (v :: rest)) - 1)%nat).
  { rewrite length_firstn. cbn [List.length].
    destruct (15 <? S (List.length rest))%nat eqn:Hc.
    - apply Nat.ltb_lt in Hc. lia.
    - apply Nat.ltb_ge in Hc. lia. }
  rewrite <- Hlen. rewrite H.
  - unfold argument_vector. cbn [firstn app Nat.add].
    rewrite skipn_repeat_zero, length_map. reflexivity.
  - reflexivity.
  - rewrite repeat_length. reflexivity.
  - rewrite length_firstn. lia.
Qed.

(** *** [vxDo], for a name that fits its buffer *)
Lemma vxDo_run (L : list TValue) (m : Z -> Z) (e : list event) :
  (forall s, name_of P L = Some s -> (strlen s < 128)%nat) ->
  l_ExecuteLuaCommand P sysSymTbl (mkState L m e)
  = let name := target_name P L in
    let arg := argument_vector (map (slot_of P) (firstn 14 (tl L))) in
    match symFind sysSymTbl name with
    | Some sym =>
        Done 1%nat
          (mkState
             (L ++ [TNumber (double_of_Z
                               (Word.to_int
                                  (fst (native P (sym_value sym) arg m))))])
             (snd (native P (sym_value sym) arg m))
             (e ++ [EvSymFind name; EvInvoke (sym_value sym) arg]))
    | None =>
        Done 0%nat
          (mkState L m
             (e ++ [EvSymFind name; EvPrintf (function_not_found name)]))
    end.
Proof.
  intros Hfit. unfold l_ExecuteLuaCommand.
  rewrite (bind_Done _ _ _ (mkState L m e) (List.length L)) by reflexivity.
  cbv zeta.
  rewrite (bind_Done _ _ _ (mkState L m e) (name_of P L)).
  2:{ apply first_argument_name.
      destruct L as [|v [|w rest]]; try reflexivity.
      cbn [List.length]. destruct (15 <? _)%nat; reflexivity. }
  rewrite (bind_Done _ _ _ _ _ (vxDo_argument_array L m e)).
  rewrite (bind_Done _ _ _ (mkState L m e) (target_name P L)).
  2:{ unfold target_name. destruct (name_of P L) as [s|] eqn:Hn.
      - apply strcpy_fits. apply Hfit. reflexivity.
      - reflexivity. }
  unfold symFindByName, invoke, printf, log, lua_pushnumber, lua_push,
    bind, ret.
  cbn [lua_stack memory events].
  destruct (symFind sysSymTbl (target_name P L)) as [sym|];
    cbn [lua_stack memory events]; rewrite <- app_assoc; reflexivity.
Qed.

Lemma vxDo_overrun (L : list TValue) (m : Z -> Z) (e : list event)
      (s : string) :
  name_of P L = Some s ->
  (128 <= strlen s)%nat ->
  l_ExecuteLuaCommand P sysSymTbl (mkState L m e) = Undefined NameBufferOverrun.
Proof.
  intros Hn Hlen. unfold l_ExecuteLuaCommand.
  rewrite (bind_Done _ _ _ (mkState L m e) (List.length L)) by reflexivity.
  cbv zeta.
  rewrite (bind_Done _ _ _ (mkState L m e) (name_of P L)).
  2:{ apply first_argument_name.
      destruct L as [|v [|w rest]]; try reflexivity.
      cbn [List.length]. destruct (15 <? _)%nat; reflexivity. }
  rewrite (bind_Done _ _ _ _ _ (vxDo_argument_array L m e)).
  rewrite Hn. apply bind_Undefined. apply strcpy_overrun. exact Hlen.
Qed.

(** *** [vxGet] *)

Lemma vxGet_run (L : list TValue) (m : Z -> Z) (e : list event)
      (s : string) :
  name_of P L = Some s ->
  (strlen s < 128)%nat ->
  (symFind sysSymTbl (c_str s) = None -> (strlen s < 127)%nat) ->
  l_vxGet P sysSymTbl (mkState L m e)
  = match symFind sysSymTbl (c_str s) with
    | Some sym =>
        Done 1%nat
          (mkState (L ++ [TNumber (double_of_Z (m (sym_value sym)))]) m
             (e ++ [EvSymFind (c_str s); EvLoad (sym_value sym)]))
    | None =>
        match symFind sysSymTbl (String "_" (c_str s)) with
        | Some sym =>
            Done 1%nat
              (mkState (L ++ [TNumber (double_of_Z (m (sym_value sym)))]) m
                 (e ++ [EvSymFind (c_str s);
                        EvSymFind (String "_" (c_str s));
                        EvLoad (sym_value sym)]))
        | None =>
            Done 0%nat
              (mkState L m
                 (e ++ [EvSymFind (c_str s);
                        EvSymFind (String "_" (c_str s));
                        EvPrintf (symbol_not_found (String "_" (c_str s)))]))
        end
    end.
Proof.
  intros Hn Hfit Hfit'. unfold l_vxGet.
  rewrite (bind_Done _ _ _ (mkState L m e) (List.length L)) by reflexivity.
  rewrite (bind_Done _ _ _ _ _ (first_argument_name_error L m e)).
  rewrite Hn. cbv beta iota zeta. change (0 =? 0) with true. cbv iota.
  rewrite (bind_Done _ _ _ _ _ (strcpy_fits 128 s _ Hfit)).
  unfold symFindByName at 1. unfold log, bind at 1 2, ret at 1.
  cbn [lua_stack memory events].
  destruct (symFind sysSymTbl (c_str s)) as [sym|] eqn:Hfind.
  - unfold load, log, lua_pushnumber, lua_push, bind, ret.
    cbn [lua_stack memory events]. rewrite <- app_assoc. reflexivity.
  - specialize (Hfit' eq_refl).
    rewrite (bind_Done _ _ _ _ "_"%string (strcpy_fits 128 "_" _ ltac:(cbn; lia))).
    unfold lift_option at 1.
    rewrite (bind_Done _ _ _ _ s (eq_refl _)).
    rewrite (bind_Done _ _ _ _ _ (strcat_underscore_fits s _ Hfit')).
    unfold symFindByName, load, printf, log, lua_pushnumber, lua_push,
      bind, ret.
    cbn [lua_stack memory events].
    destruct (symFind sysSymTbl (String "_" (c_str s))) as [sym|];
      cbn [lua_stack memory events]; repeat rewrite <- app_assoc; reflexivity.
Qed.

Lemma vxGet_without_name (L : list TValue) (m : Z -> Z) (e : list event) :
  name_of P L = None ->
  l_vxGet P sysSymTbl (mkState L m e) = Done 0%nat (mkState L m e).
Proof.
  intros Hn. unfold l_vxGet.
  rewrite (bind_Done _ _ _ (mkState L m e) (List.length L)) by reflexivity.
  rewrite (bind_Done _ _ _ _ _ (first_argument_name_error L m e)).
  rewrite Hn. reflexivity.
Qed.

(** *** [vxSet] *)

Lemma vxSet_run (L : list TValue) (m : Z -> Z) (e : list event)
      (s : string) :
  name_of P L = Some s ->
  (2 <= List.length L)%nat ->
  (strlen s < 128)%nat ->
  (symFind sysSymTbl (c_str s) = None -> (strlen s < 127)%nat) ->
  l_vxSet P sysSymTbl (mkState L m e)
  = let v := double_to_uint P (number_at P L 2) in
    match symFind sysSymTbl (c_str s) with
    | Some sym =>
        Done 0%nat
          (mkState L (fun a => if a =? sym_value sym then v else m a)
             (e ++ [EvSymFind (c_str s); EvStore (sym_value sym) v]))
    | None =>
        match symFind sysSymTbl (String "_" (c_str s)) with
        | Some sym =>
            Done 0%nat
              (mkState L (fun a => if a =? sym_value sym then v else m a)
                 (e ++ [EvSymFind (c_str s);
                        EvSymFind (String "_" (c_str s));
                        EvStore (sym_value sym) v]))
        | None =>
            Done 0%nat
              (mkState L m
                 (e ++ [EvSymFind (c_str s);
                        EvSymFind (String "_" (c_str s));
                        EvPrintf (symbol_not_found (String "_" (c_str s)))]))
        end
    end.
Proof.
  intros Hn Hlen Hfit Hfit'. unfold l_vxSet.
  rewrite (bind_Done _ _ _ (mkState L m e) (List.length L)) by reflexivity.
  rewrite (bind_Done _ _ _ _ _ (first_argument_name_error L m e)).
  rewrite Hn. cbv beta iota zeta.
  assert (Hlt : (List.length L <? 2)%nat = false) by (apply Nat.ltb_ge; lia).
  rewrite Hlt. change (0 =? 0) with true. cbv iota.
  rewrite (bind_Done _ _ _ _ _ (strcpy_fits 128 s _ Hfit)).
  unfold symFindByName at 1. unfold log, bind at 1 2, ret at 1.
  cbn [lua_stack memory events].
  destruct (symFind sysSymTbl (c_str s)) as [sym|] eqn:Hfind.
  - unfold store, lua_tonumber, query, log, bind, ret.
    cbn [lua_stack memory events]. rewrite <- app_assoc. reflexivity.
  - specialize (Hfit' eq_refl).
    rewrite (bind_Done _ _ _ _ "_"%string (strcpy_fits 128 "_" _ ltac:(cbn; lia))).
    unfold lift_option at 1.
    rewrite (bind_Done _ _ _ _ s (eq_refl _)).
    rewrite (bind_Done _ _ _ _ _ (strcat_underscore_fits s _ Hfit')).
    unfold symFindByName, store, lua_tonumber, query, printf, log, bind, ret.
    cbn [lua_stack memory events].
    destruct (symFind sysSymTbl (String "_" (c_str s))) as [sym|];
      cbn [lua_stack memory events]; repeat rewrite <- app_assoc; reflexivity.
Qed.

(** With fewer than two values on the stack, [error] is set again and
    nothing else happens. *)
Lemma vxSet_too_few (L : list TValue) (m : Z -> Z) (e : list event) :
  (List.length L < 2)%nat ->
  l_vxSet P sysSymTbl (mkState L m e) = Done 0%nat (mkState L m e).
Proof.
  intros Hlen. unfold l_vxSet.
  rewrite (bind_Done _ _ _ (mkState L m e) (List.length L)) by reflexivity.
  rewrite (bind_Done _ _ _ _ _ (first_argument_name_error L m e)).
  cbv beta iota zeta.
  apply Nat.ltb_lt in Hlen. rewrite Hlen. reflexivity.
Qed.

(** *** [vxReadLine] *)

Lemma vxReadLine_run (L : list TValue) (m : Z -> Z) (e : list event)
      (s : string) :
  name_of P L = Some s ->
  l_vxReadLine P (mkState L m e)
  = let prompt := string_prefix 127 (c_str s) in
    Done 1%nat
      (mkState (L ++ [TString (c_str (sal_readline P prompt))]) m
         (e ++ [EvReadline prompt])).
Proof.
  intros Hn. unfold l_vxReadLine.
  rewrite (bind_Done _ _ _ (mkState L m e) (List.length L)) by reflexivity.
  rewrite (bind_Done _ _ _ (mkState L m e) (Some (Some s), Some 0)).
  2:{ destruct L as [|v rest]; [discriminate|].
      destruct v; try discriminate; cbn in Hn; inversion Hn; reflexivity. }
  cbv beta iota zeta. unfold lift_option at 1.
  rewrite (bind_Done _ _ _ _ 0 (eq_refl _)).
  change (0 =? 0) with true. cbv iota.
  unfold lift_option at 1. rewrite (bind_Done _ _ _ _ (Some s) (eq_refl _)).
  unfold lift_option at 1. rewrite (bind_Done _ _ _ _ s (eq_refl _)).
  rewrite (string_of_truncated_buffer s 127).
  reflexivity.
Qed.

Lemma vxGet_overrun (L : list TValue) (m : Z -> Z) (e : list event)
      (s : string) :
  name_of P L = Some s ->
  (128 <= strlen s)%nat ->
  l_vxGet P sysSymTbl (mkState L m e) = Undefined NameBufferOverrun.
Proof.
  intros Hn Hlen. unfold l_vxGet.
  rewrite (bind_Done _ _ _ (mkState L m e) (List.length L)) by reflexivity.
  rewrite (bind_Done _ _ _ _ _ (first_argument_name_error L m e)).
  rewrite Hn. cbv beta iota zeta. change (0 =? 0) with true. cbv iota.
  apply bind_Undefined. apply strcpy_overrun. exact Hlen.
Qed.

Lemma vxSet_overrun (L : list TValue) (m : Z -> Z) (e : list event)
      (s : string) :
  name_of P L = Some s ->
  (2 <= List.length L)%nat ->
  (128 <= strlen s)%nat ->
  l_vxSet P sysSymTbl (mkState L m e) = Undefined NameBufferOverrun.
Proof.
  intros Hn Hargs Hlen. unfold l_vxSet.
  rewrite (bind_Done _ _ _ (mkState L m e) (List.length L)) by reflexivity.
  rewrite (bind_Done _ _ _ _ _ (first_argument_name_error L m e)).
  rewrite Hn. cbv beta iota zeta.
  assert (Hlt : (List.length L <? 2)%nat = false) by (apply Nat.ltb_ge; lia).
  rewrite Hlt. change (0 =? 0) with true. cbv iota.
  apply bind_Undefined. apply strcpy_overrun. exact Hlen.
Qed.

(** *** What the script receives *)

Lemma run_one_result (f : M nat) (s : state) (L : list TValue) (x : TValue)
      (m : Z -> Z) (e : list event) :
  f s = Done 1%nat (mkState (L ++ [x]) m e) -> run f s = Returns [x] m e.
Proof.
  intros H. unfold run. rewrite H. cbn [lua_stack memory events].
  rewrite length_app. cbn [List.length].
  replace (List.length L + 1 - 1)%nat with (List.length L + 0)%nat by lia.
  rewrite skipn_app, Nat.add_0_r, skipn_all.
  replace (List.length L - List.length L)%nat with 0%nat by lia.
  reflexivity.
Qed.

Lemma run_no_result (f : M nat) (s : state) (L : list TValue)
      (m : Z -> Z) (e : list event) :
  f s = Done 0%nat (mkState L m e) -> run f s = Returns [] m e.
Proof.
  intros H. unfold run. rewrite H. cbn [lua_stack memory events].
  rewrite Nat.sub_0_r, skipn_all. reflexivity.
Qed.

Lemma run_undefined (f : M nat) (s : state) (u : undefined) :
  f s = Undefined u -> run f s = Crashes u.
Proof. intros H. unfold run. rewrite H. reflexivity. Qed.

(** [vxDo] as the script sees it, for a name that fits. *)
Lemma vxDo_outcome (L : list TValue) (m : Z -> Z) (e : list event) :
  (forall s, name_of P L = Some s -> (strlen s < 128)%nat) ->
  run (l_ExecuteLuaCommand P sysSymTbl) (mkState L m e)
  = let name := target_name P L in
    let arg := argument_vector (map (slot_of P) (firstn 14 (tl L))) in
    match symFind sysSymTbl name with
    | Some sym =>
        Returns
          [TNumber (double_of_Z
                      (Word.to_int (fst (native P (sym_value sym) arg m))))]
          (snd (native P (sym_value sym) arg m))
          (e ++ [EvSymFind name; EvInvoke (sym_value sym) arg])
    | None =>
        Returns [] m
          (e ++ [EvSymFind name; EvPrintf (function_not_found name)])
    end.
Proof.
  intros Hfit. pose proof (vxDo_run L m e Hfit) as H. cbv zeta in H |- *.
  destruct (symFind sysSymTbl (target_name P L)) as [sym|].
  - eapply run_one_result. exact H.
  - eapply run_no_result. exact H.
Qed.

End Correctness.

(** ** Calls: the argument vector and the result *)

(** With at most fourteen arguments after the name, the native code is
    entered with their words in the leading slots and zeros behind, and the
    script receives the [int] it returns. *)
Lemma vxDo_invokes_with_arguments (P : Platform) (tbl : SYMTAB) (s : string)
      (sym : SYMBOL) (args : list TValue) (m : Z -> Z) (e : list event) :
  (strlen s < 128)%nat ->
  symFind tbl (c_str s) = Some sym ->
  (List.length args <= 14)%nat ->
  run (l_ExecuteLuaCommand P tbl) (mkState (TString s :: args) m e)
  = let arg := argument_vector (map (slot_of P) args) in
    Returns
      [TNumber (double_of_Z (Word.to_int (fst (native P (sym_value sym) arg m))))]
      (snd (native P (sym_value sym) arg m))
      (e ++ [EvSymFind (c_str s); EvInvoke (sym_value sym) arg]).
Proof.
  intros Hfit Hfind Hlen. rewrite vxDo_outcome.
  - cbv zeta. unfold target_name. cbn [name_of tl]. rewrite Hfind.
    rewrite firstn_all2 by exact Hlen. reflexivity.
  - cbn [name_of]. intros s' Hs'. inversion Hs'. subst s'. exact Hfit.
Qed.

(** C1 (as the code has it): a call with fifteen arguments after the name
    enters the native code with the words of the first fourteen in slots
    0..13 and zero in slot 14, whatever the fifteenth argument is; the
    clipping of [nArgs] to 15 counts the name. *)
Theorem vxDo_fifteenth_argument_dropped (P : Platform) (tbl : SYMTAB)
        (s : string) (sym : SYMBOL) (args : list TValue) (a15 : TValue)
        (m : Z -> Z) (e : list event) :
  (strlen s < 128)%nat ->
  symFind tbl (c_str s) = Some sym ->
  List.length args = 14%nat ->
  run (l_ExecuteLuaCommand P tbl) (mkState (TString s :: args ++ [a15]) m e)
  = let arg := map (slot_of P) args ++ [0] in
    Returns
      [TNumber (double_of_Z (Word.to_int (fst (native P (sym_value sym) arg m))))]
      (snd (native P (sym_value sym) arg m))
      (e ++ [EvSymFind (c_str s); EvInvoke (sym_value sym) arg]).
Proof.
  intros Hfit Hfind Hlen. rewrite vxDo_outcome.
  - cbv zeta. unfold target_name. cbn [name_of tl]. rewrite Hfind.
    rewrite firstn_app, Hlen, Nat.sub_diag, firstn_O, app_nil_r.
    rewrite firstn_all2 by lia.
    unfold argument_vector. rewrite length_map, Hlen. reflexivity.
  - cbn [name_of]. intros s' Hs'. inversion Hs'. subst s'. exact Hfit.
Qed.

Lemma vxDo_fifteenth_argument_dropped_witness :
  (strlen "add_two_ints" < 128)%nat
  /\ symFind Target.elf_table (c_str "add_two_ints")
     = Some (mkSymbol "add_two_ints" Target.add_two_ints_addr N_TEXT)
  /\ List.length (map Target.num [1; 2; 3; 4; 5; 6; 7; 8; 9; 10; 11; 12; 13; 14])
     = 14%nat
  /\ run (l_ExecuteLuaCommand Target.platform Target.elf_table)
       (Target.start
          (TString "add_two_ints"
           :: map Target.num [1; 2; 3; 4; 5; 6; 7; 8; 9; 10; 11; 12; 13; 14]
              ++ [Target.num 15]))
     = Returns [Target.num 3] Target.zeroed
         [EvSymFind "add_two_ints";
          EvInvoke Target.add_two_ints_addr
            [1; 2; 3; 4; 5; 6; 7; 8; 9; 10; 11; 12; 13; 14; 0]].
Proof.
  split; [cbn; lia|]. split; [reflexivity|]. split; [reflexivity|].
  exact (vxDo_fifteenth_argument_dropped Target.platform Target.elf_table
           "add_two_ints"
           (mkSymbol "add_two_ints" Target.add_two_ints_addr N_TEXT)
           (map Target.num [1; 2; 3; 4; 5; 6; 7; 8; 9; 10; 11; 12; 13; 14])
           (Target.num 15) Target.zeroed []
           ltac:(cbn; lia) eq_refl eq_refl).
Defined.

(** ** Global variables *)

(** C2: for a name that resolves (as written, or with the underscore when
    it does not resolve as written) to a symbol, [vxGet] returns the word
    stored at the symbol's address, and after [vxSet] of a number whose
    integral part is an [unsigned int], [vxGet] returns that integral
    part. *)
Theorem vxGet_after_vxSet (P : Platform) (tbl : SYMTAB) (s : string)
        (sym : SYMBOL) (m : Z -> Z) :
  (strlen s < 128)%nat ->
  (symFind tbl (c_str s) = None -> (strlen s < 127)%nat) ->
  (symFind tbl (c_str s) = Some sym
   \/ (symFind tbl (c_str s) = None
       /\ symFind tbl (String "_" (c_str s)) = Some sym)) ->
  (forall rest e, exists evs,
      run (l_vxGet P tbl) (mkState (TString s :: rest) m e)
      = Returns [TNumber (double_of_Z (m (sym_value sym)))] m evs)
  /\ (forall q rest e,
         0 <= Qtrunc q <= Word.UINT_MAX ->
         exists m' evs,
           run (l_vxSet P tbl)
             (mkState (TString s :: TNumber (Finite q) :: rest) m e)
           = Returns [] m' evs
           /\ forall rest' e', exists evs',
               run (l_vxGet P tbl) (mkState (TString s :: rest') m' e')
               = Returns [TNumber (double_of_Z (Qtrunc q))] m' evs').
Proof.
  intros Hfit Hfit' Hres.
  assert (Hget : forall mem rest e, exists evs,
             run (l_vxGet P tbl) (mkState (TString s :: rest) mem e)
             = Returns [TNumber (double_of_Z (mem (sym_value sym)))] mem evs).
  { intros mem rest e.
    pose proof (vxGet_run P tbl (TString s :: rest) mem e s eq_refl Hfit Hfit')
      as H.
    destruct Hres as [Hv | [Hv Hu]].
    - rewrite Hv in H. eexists. eapply run_one_result. exact H.
    - rewrite Hv, Hu in H. eexists. eapply run_one_result. exact H. }
  split; [apply Hget|].
  intros q rest e Hq.
  assert (Hword : double_to_uint P (number_at P (TString s :: TNumber (Finite q) :: rest) 2)
                  = Qtrunc q).
  { unfold number_at, tonumber, index2adr, double_to_uint, double_to_integer.
    cbn [nth_error].
    destruct Hq as [Hlo Hhi].
    apply Z.leb_le in Hlo. apply Z.leb_le in Hhi. rewrite Hlo, Hhi.
    reflexivity. }
  pose proof (vxSet_run P tbl (TString s :: TNumber (Finite q) :: rest) m e s
                eq_refl ltac:(cbn [List.length]; lia) Hfit Hfit') as H.
  cbv zeta in H. rewrite Hword in H.
  set (m' := fun a => if a =? sym_value sym then Qtrunc q else m a).
  assert (Hm' : m' (sym_value sym) = Qtrunc q).
  { unfold m'. rewrite Z.eqb_refl. reflexivity. }
  exists m'.
  destruct Hres as [Hv | [Hv Hu]].
  - rewrite Hv in H. eexists. split.
    + eapply run_no_result. exact H.
    + intros rest' e'. destruct (Hget m' rest' e') as [evs' Hg].
      exists evs'. rewrite Hg, Hm'. reflexivity.
  - rewrite Hv, Hu in H. eexists. split.
    + eapply run_no_result. exact H.
    + intros rest' e'. destruct (Hget m' rest' e') as [evs' Hg].
      exists evs'. rewrite Hg, Hm'. reflexivity.
Qed.

Lemma vxGet_after_vxSet_witness :
  (strlen "LuaTestVariable" < 128)%nat
  /\ (symFind Target.elf_table (c_str "LuaTestVariable")
      = Some (mkSymbol "LuaTestVariable" Target.LuaTestVariable_addr N_BSS))
  /\ (forall rest e, exists evs,
         run (l_vxGet Target.platform Target.elf_table)
           (mkState (TString "LuaTestVariable" :: rest) Target.zeroed e)
         = Returns [Target.num 0] Target.zeroed evs)
  /\ (forall q rest e,
         0 <= Qtrunc q <= Word.UINT_MAX ->
         exists m' evs,
           run (l_vxSet Target.platform Target.elf_table)
             (mkState (TString "LuaTestVariable" :: TNumber (Finite q) :: rest)
                Target.zeroed e)
           = Returns [] m' evs
           /\ forall rest' e', exists evs',
               run (l_vxGet Target.platform Target.elf_table)
                 (mkState (TString "LuaTestVariable" :: rest') m' e')
               = Returns [Target.num (Qtrunc q)] m' evs').
Proof.
  split; [cbn; lia|]. split; [reflexivity|].
  exact (vxGet_after_vxSet Target.platform Target.elf_table "LuaTestVariable"
           (mkSymbol "LuaTestVariable" Target.LuaTestVariable_addr N_BSS)
           Target.zeroed
           ltac:(cbn; lia)
           (fun H => ltac:(cbn; lia))
           (or_introl eq_refl)).
Defined.

(** The scenario of the header's sample script: [vxSet("LuaTestVariable",
    321)] and then [vxGet("LuaTestVariable")]. *)
Example vxSet_321_then_vxGet :
  match l_vxSet Target.platform Target.elf_table
          (Target.start [TString "LuaTestVariable"; Target.num 321]) with
  | Done _ s' =>
      run (l_vxGet Target.platform Target.elf_table)
        (mkState [TString "LuaTestVariable"] (memory s') [])
      = Returns [Target.num 321] (memory s')
          [EvSymFind "LuaTestVariable"; EvLoad Target.LuaTestVariable_addr]
  | Undefined _ => False
  end.
Proof. reflexivity. Qed.

(** ** Names that do not resolve *)

(** C3: a call whose name is not in the symbol table as written returns
    no value, prints the function-not-found diagnostic, and does nothing
    else: the log holds the one lookup and the diagnostic (no invocation,
    no load, no store) and the memory is untouched.  The decorated spelling
    is never consulted, so this covers every name that resolves under
    neither spelling. *)
Theorem vxDo_unresolved_name (P : Platform) (tbl : SYMTAB) (s : string)
        (rest : list TValue) (m : Z -> Z) (e : list event) :
  (strlen s < 128)%nat ->
  symFind tbl (c_str s) = None ->
  symFind tbl (String "_" (c_str s)) = None ->
  run (l_ExecuteLuaCommand P tbl) (mkState (TString s :: rest) m e)
  = Returns [] m
      (e ++ [EvSymFind (c_str s); EvPrintf (function_not_found (c_str s))]).
Proof.
  intros Hfit Hfind _. rewrite vxDo_outcome.
  - cbv zeta. unfold target_name. cbn [name_of]. rewrite Hfind. reflexivity.
  - cbn [name_of]. intros s' Hs'. inversion Hs'. subst s'. exact Hfit.
Qed.

Lemma vxDo_unresolved_name_witness :
  (strlen "nonexistent_fn" < 128)%nat
  /\ symFind Target.elf_table (c_str "nonexistent_fn") = None
  /\ symFind Target.elf_table (String "_" (c_str "nonexistent_fn")) = None
  /\ run (l_ExecuteLuaCommand Target.platform Target.elf_table)
       (Target.start [TString "nonexistent_fn"; Target.num 7])
     = Returns [] Target.zeroed
         [EvSymFind "nonexistent_fn";
          EvPrintf (function_not_found "nonexistent_fn")].
Proof.
  split; [cbn; lia|]. split; [reflexivity|]. split; [reflexivity|].
  exact (vxDo_unresolved_name Target.platform Target.elf_table "nonexistent_fn"
           [Target.num 7] Target.zeroed [] ltac:(cbn; lia) eq_refl eq_refl).
Defined.

(** ** The order of lookups *)

(** C4 (as stated, refuted): on a table that holds a function only under
    its decorated name, [vxDo] looks the name up once, as written, and
    reports the function missing; the decorated spelling, which would
    resolve, is not tried. *)
Lemma vxDo_does_not_retry_decorated :
  run (l_ExecuteLuaCommand Target.platform Target.aout_table)
    (Target.start [TString "LuaDecimalTest"; Target.num 25])
  = Returns [] Target.zeroed
      [EvSymFind "LuaDecimalTest";
       EvPrintf (function_not_found "LuaDecimalTest")]
  /\ symFind Target.aout_table (String "_" "LuaDecimalTest")
     = Some (mkSymbol "_LuaDecimalTest" Target.LuaDecimalTest_addr N_TEXT).
Proof. split; reflexivity. Qed.

(** C4 (amended): [vxGet] and [vxSet] look the name up as written and,
    when that fails, once more with an underscore in front, and report the
    symbol missing only when both lookups fail; [vxDo] looks the name up
    exactly once, as written, and reports the function missing as soon as
    that lookup fails. *)
Theorem lookup_order_by_path (P : Platform) (tbl : SYMTAB) (s : string)
        (v : TValue) (rest : list TValue) (m : Z -> Z) (e : list event) :
  (strlen s < 127)%nat ->
  (* vxGet *)
  run (l_vxGet P tbl) (mkState (TString s :: rest) m e)
  = match symFind tbl (c_str s) with
    | Some sym =>
        Returns [TNumber (double_of_Z (m (sym_value sym)))] m
          (e ++ [EvSymFind (c_str s); EvLoad (sym_value sym)])
    | None =>
        match symFind tbl (String "_" (c_str s)) with
        | Some sym =>
            Returns [TNumber (double_of_Z (m (sym_value sym)))] m
              (e ++ [EvSymFind (c_str s); EvSymFind (String "_" (c_str s));
                     EvLoad (sym_value sym)])
        | None =>
            Returns [] m
              (e ++ [EvSymFind (c_str s); EvSymFind (String "_" (c_str s));
                     EvPrintf (symbol_not_found (String "_" (c_str s)))])
        end
    end
  (* vxSet *)
  /\ run (l_vxSet P tbl) (mkState (TString s :: v :: rest) m e)
     = (let w := double_to_uint P (number_at P (TString s :: v :: rest) 2) in
        match symFind tbl (c_str s) with
        | Some sym =>
            Returns [] (fun a => if a =? sym_value sym then w else m a)
              (e ++ [EvSymFind (c_str s); EvStore (sym_value sym) w])
        | None =>
            match symFind tbl (String "_" (c_str s)) with
            | Some sym =>
                Returns [] (fun a => if a =? sym_value sym then w else m a)
                  (e ++ [EvSymFind (c_str s); EvSymFind (String "_" (c_str s));
                         EvStore (sym_value sym) w])
            | None =>
                Returns [] m
                  (e ++ [EvSymFind (c_str s); EvSymFind (String "_" (c_str s));
                         EvPrintf (symbol_not_found (String "_" (c_str s)))])
            end
        end)
  (* vxDo *)
  /\ run (l_ExecuteLuaCommand P tbl) (mkState (TString s :: rest) m e)
     = (let arg := argument_vector (map (slot_of P) (firstn 14 rest)) in
        match symFind tbl (c_str s) with
        | Some sym =>
            Returns
              [TNumber (double_of_Z
                          (Word.to_int (fst (native P (sym_value sym) arg m))))]
              (snd (native P (sym_value sym) arg m))
              (e ++ [EvSymFind (c_str s); EvInvoke (sym_value sym) arg])
        | None =>
            Returns [] m
              (e ++ [EvSymFind (c_str s);
                     EvPrintf (function_not_found (c_str s))])
        end).
Proof.
  intros Hfit.
  assert (Hfit128 : (strlen s < 128)%nat) by lia.
  split; [|split].
  - pose proof (vxGet_run P tbl (TString s :: rest) m e s eq_refl Hfit128
                  (fun _ => Hfit)) as H.
    destruct (symFind tbl (c_str s)) as [sym|].
    + eapply run_one_result. exact H.
    + destruct (symFind tbl (String "_" (c_str s))) as [sym|].
      * eapply run_one_result. exact H.
      * eapply run_no_result. exact H.
  - pose proof (vxSet_run P tbl (TString s :: v :: rest) m e s eq_refl
                  ltac:(cbn [List.length]; lia) Hfit128 (fun _ => Hfit)) as H.
    cbv zeta in H |- *.
    destruct (symFind tbl (c_str s)) as [sym|].
    + eapply run_no_result. exact H.
    + destruct (symFind tbl (String "_" (c_str s))) as [sym|];
        eapply run_no_result; exact H.
  - rewrite vxDo_outcome.
    + reflexivity.
    + cbn [name_of]. intros s' Hs'. inversion Hs'. subst s'. exact Hfit128.
Qed.

Lemma lookup_order_by_path_witness :
  (strlen "LuaTestVariable" < 127)%nat
  /\ run (l_vxGet Target.platform Target.aout_table)
       (Target.start [TString "LuaTestVariable"])
     = Returns [Target.num 0] Target.zeroed
         [EvSymFind "LuaTestVariable"; EvSymFind "_LuaTestVariable";
          EvLoad Target.LuaTestVariable_addr]
  /\ run (l_vxSet Target.platform Target.aout_table)
       (Target.start [TString "LuaTestVariable"; Target.num 321])
     = Returns []
         (fun a => if a =? Target.LuaTestVariable_addr then 321
                   else Target.zeroed a)
         [EvSymFind "LuaTestVariable"; EvSymFind "_LuaTestVariable";
          EvStore Target.LuaTestVariable_addr 321]
  /\ run (l_ExecuteLuaCommand Target.platform Target.aout_table)
       (Target.start [TString "LuaTestVariable"])
     = Returns [] Target.zeroed
         [EvSymFind "LuaTestVariable";
          EvPrintf (function_not_found "LuaTestVariable")].
Proof.
  split; [cbn; lia|].
  exact (lookup_order_by_path Target.platform Target.aout_table
           "LuaTestVariable" (Target.num 321) [] Target.zeroed []
           ltac:(cbn; lia)).
Defined.

(** ** [vxSet] without a value *)

(** C5 (as stated, refuted): [vxSet] with the name alone returns nothing
    and leaves the log empty: no diagnostic is printed. *)
Lemma vxSet_missing_value_is_silent :
  run (l_vxSet Target.platform Target.elf_table)
    (Target.start [TString "LuaTestVariable"])
  = Returns [] Target.zeroed [].
Proof. reflexivity. Qed.

(** C5 (amended): with fewer than two values on the stack [vxSet] returns
    no value at once: no lookup, no store, and nothing printed; memory and
    log are as they were. *)
Theorem vxSet_too_few_arguments (P : Platform) (tbl : SYMTAB)
        (L : list TValue) (m : Z -> Z) (e : list event) :
  (List.length L < 2)%nat ->
  run (l_vxSet P tbl) (mkState L m e) = Returns [] m e.
Proof.
  intros Hlen. eapply run_no_result. apply vxSet_too_few. exact Hlen.
Qed.

Lemma vxSet_too_few_arguments_witness :
  (List.length [TString "LuaTestVariable"] < 2)%nat
  /\ run (l_vxSet Target.platform Target.elf_table)
       (mkState [TString "LuaTestVariable"] Target.zeroed
          [EvPrintf "Starting tests..."])
     = Returns [] Target.zeroed [EvPrintf "Starting tests..."].
Proof.
  split; [cbn; lia|].
  exact (vxSet_too_few_arguments Target.platform Target.elf_table
           [TString "LuaTestVariable"] Target.zeroed
           [EvPrintf "Starting tests..."] ltac:(cbn; lia)).
Defined.

(** ** The category of the symbol a call resolves to *)

(** C6 (as stated, refuted): [LuaTestVariable] is in the table as a data
    symbol only; [vxDo] on it enters the address as code and returns a
    value. *)
Lemma vxDo_invokes_data_symbol :
  option_map is_data (symFind Target.elf_table "LuaTestVariable") = Some true
  /\ run (l_ExecuteLuaCommand Target.platform Target.elf_table)
       (Target.start [TString "LuaTestVariable"])
     = Returns [Target.num 0] Target.zeroed
         [EvSymFind "LuaTestVariable";
          EvInvoke Target.LuaTestVariable_addr
            [0; 0; 0; 0; 0; 0; 0; 0; 0; 0; 0; 0; 0; 0; 0]].
Proof. split; reflexivity. Qed.

(** C6 (amended): [vxDo] resolves the name among the symbols of every
    category; a name that resolves to a data symbol is entered at the
    symbol's address like a function and the word left as the result is
    returned. *)
Theorem vxDo_ignores_symbol_type (P : Platform) (tbl : SYMTAB) (s : string)
        (sym : SYMBOL) (rest : list TValue) (m : Z -> Z) (e : list event) :
  (strlen s < 128)%nat ->
  symFind tbl (c_str s) = Some sym ->
  is_data sym = true ->
  run (l_ExecuteLuaCommand P tbl) (mkState (TString s :: rest) m e)
  = let arg := argument_vector (map (slot_of P) (firstn 14 rest)) in
    Returns
      [TNumber (double_of_Z (Word.to_int (fst (native P (sym_value sym) arg m))))]
      (snd (native P (sym_value sym) arg m))
      (e ++ [EvSymFind (c_str s); EvInvoke (sym_value sym) arg]).
Proof.
  intros Hfit Hfind _. rewrite vxDo_outcome.
  - cbv zeta. unfold target_name. cbn [name_of tl]. rewrite Hfind. reflexivity.
  - cbn [name_of]. intros s' Hs'. inversion Hs'. subst s'. exact Hfit.
Qed.

Lemma vxDo_ignores_symbol_type_witness :
  (strlen "LuaTestVariable" < 128)%nat
  /\ symFind Target.elf_table (c_str "LuaTestVariable")
     = Some (mkSymbol "LuaTestVariable" Target.LuaTestVariable_addr N_BSS)
  /\ is_data (mkSymbol "LuaTestVariable" Target.LuaTestVariable_addr N_BSS)
     = true
  /\ run (l_ExecuteLuaCommand Target.platform Target.elf_table)
       (Target.start [TString "LuaTestVariable"; Target.num 9])
     = Returns [Target.num 0] Target.zeroed
         [EvSymFind "LuaTestVariable";
          EvInvoke Target.LuaTestVariable_addr
            [9; 0; 0; 0; 0; 0; 0; 0; 0; 0; 0; 0; 0; 0; 0]].
Proof.
  split; [cbn; lia|]. split; [reflexivity|]. split; [reflexivity|].
  exact (vxDo_ignores_symbol_type Target.platform Target.elf_table
           "LuaTestVariable"
           (mkSymbol "LuaTestVariable" Target.LuaTestVariable_addr N_BSS)
           [Target.num 9] Target.zeroed [] ltac:(cbn; lia) eq_refl eq_refl).
Defined.

(** ** Marshalling by dynamic type *)

(** What the loop assigns for each kind of value that is not a numeric
    string: zero for [nil], 0 or 1 for a boolean, the integral part (as a
    word) for a number whose integral part is an [int32_t], the address of
    the characters for a string that does not convert to a number, zero
    for tables, functions, userdata and threads. *)
Lemma marshal_argument_by_type (P : Platform) (L : list TValue) (i : nat)
      (v : TValue) (m : Z -> Z) (e : list event) :
  index2adr L i = Some v ->
  marshal_argument P i (mkState L m e)
  = Done (match v with
          | TNil => 0
          | TBoolean b => if b then 1 else 0
          | TNumber n => Word.to_uint (double_to_int32 P n)
          | TString s =>
              match luaO_str2d P s with
              | Some n => Word.to_uint (double_to_int32 P n)
              | None => Word.to_uint (getstr P s)
              end
          | TLightUserdata _ | TTable _ | TFunction _ _ | TUserdata _
          | TThread _ => 0
          end) (mkState L m e).
Proof.
  intros Hv. rewrite (marshal_argument_slot P L i v m e Hv).
  destruct v; reflexivity.
Qed.

Lemma double_to_int32_in_range (P : Platform) (q : Q) :
  Word.INT32_MIN <= Qtrunc q <= Word.INT32_MAX ->
  double_to_int32 P (Finite q) = Qtrunc q.
Proof.
  intros [Hlo Hhi]. unfold double_to_int32, double_to_integer.
  apply Z.leb_le in Hlo. apply Z.leb_le in Hhi. rewrite Hlo, Hhi. reflexivity.
Qed.

(** C7 (as the code has it): a string argument that converts to a number
    is caught by the [lua_isnumber] test, which comes before the
    [lua_isstring] test, and the native code receives the number, not the
    address of the characters. *)
Theorem vxDo_numeric_string_passed_as_number (P : Platform) (tbl : SYMTAB)
        (name s : string) (sym : SYMBOL) (n : lua_Number)
        (m : Z -> Z) (e : list event) :
  (strlen name < 128)%nat ->
  symFind tbl (c_str name) = Some sym ->
  luaO_str2d P s = Some n ->
  run (l_ExecuteLuaCommand P tbl) (mkState [TString name; TString s] m e)
  = let arg := argument_vector [Word.to_uint (double_to_int32 P n)] in
    Returns
      [TNumber (double_of_Z (Word.to_int (fst (native P (sym_value sym) arg m))))]
      (snd (native P (sym_value sym) arg m))
      (e ++ [EvSymFind (c_str name); EvInvoke (sym_value sym) arg]).
Proof.
  intros Hfit Hfind Hnum. rewrite vxDo_outcome.
  - cbv zeta. unfold target_name. cbn [name_of tl firstn map slot_of].
    rewrite Hfind, Hnum. reflexivity.
  - cbn [name_of]. intros s' Hs'. inversion Hs'. subst s'. exact Hfit.
Qed.

Lemma vxDo_numeric_string_passed_as_number_witness :
  (strlen "LuaStringTest" < 128)%nat
  /\ symFind Target.elf_table (c_str "LuaStringTest")
     = Some (mkSymbol "LuaStringTest" Target.LuaStringTest_addr N_TEXT)
  /\ luaO_str2d Target.platform "123" = Some (double_of_Z 123)
  /\ Word.to_uint (getstr Target.platform "123") = 1049344
  /\ run (l_ExecuteLuaCommand Target.platform Target.elf_table)
       (Target.start [TString "LuaStringTest"; TString "123"])
     = Returns [Target.num 0] Target.zeroed
         [EvSymFind "LuaStringTest";
          EvInvoke Target.LuaStringTest_addr
            [123; 0; 0; 0; 0; 0; 0; 0; 0; 0; 0; 0; 0; 0; 0]].
Proof.
  split; [cbn; lia|]. split; [reflexivity|]. split; [reflexivity|].
  split; [reflexivity|].
  exact (vxDo_numeric_string_passed_as_number Target.platform Target.elf_table
           "LuaStringTest" "123"
           (mkSymbol "LuaStringTest" Target.LuaStringTest_addr N_TEXT)
           (double_of_Z 123) Target.zeroed []
           ltac:(cbn; lia) eq_refl eq_refl).
Defined.

(** A string that does not convert is passed by address. *)
Example vxDo_string_by_address :
  run (l_ExecuteLuaCommand Target.platform Target.elf_table)
    (Target.start [TString "LuaStringTest"; TString "Hello You!"])
  = Returns [Target.num 0] Target.zeroed
      [EvSymFind "LuaStringTest";
       EvInvoke Target.LuaStringTest_addr
         [getstr Target.platform "Hello You!";
          0; 0; 0; 0; 0; 0; 0; 0; 0; 0; 0; 0; 0; 0]].
Proof. reflexivity. Qed.

(** ** More arguments than slots *)

(** A call either returns or overruns the name buffer; the argument array
    is never written outside its fifteen slots. *)
Lemma vxDo_returns_or_overruns_name (P : Platform) (tbl : SYMTAB)
      (L : list TValue) (m : Z -> Z) (e : list event) :
  (exists vals m' evs,
      run (l_ExecuteLuaCommand P tbl) (mkState L m e) = Returns vals m' evs)
  \/ run (l_ExecuteLuaCommand P tbl) (mkState L m e) = Crashes NameBufferOverrun.
Proof.
  destruct (name_of P L) as [s|] eqn:Hn.
  - destruct (Nat.lt_ge_cases (strlen s) 128) as [Hfit | Hlong].
    + left. rewrite vxDo_outcome.
      * cbv zeta. destruct (symFind tbl (target_name P L)); eauto.
      * intros s' Hs'. rewrite Hn in Hs'. inversion Hs'. subst s'. exact Hfit.
    + right. apply run_undefined. eapply vxDo_overrun; eassumption.
  - left. rewrite vxDo_outcome.
    + cbv zeta. destruct (symFind tbl (target_name P L)); eauto.
    + intros s' Hs'. rewrite Hn in Hs'. discriminate.
Qed.

(** What a call does is fixed by its first value and the fourteen values
    after it. *)
Lemma vxDo_depends_on_prefix (P : Platform) (tbl : SYMTAB)
      (v : TValue) (rest rest' : list TValue) (m : Z -> Z) (e : list event) :
  firstn 14 rest = firstn 14 rest' ->
  run (l_ExecuteLuaCommand P tbl) (mkState (v :: rest) m e)
  = run (l_ExecuteLuaCommand P tbl) (mkState (v :: rest') m e).
Proof.
  intros Hpre.
  assert (Hname : name_of P (v :: rest) = name_of P (v :: rest'))
    by (destruct v; reflexivity).
  destruct (name_of P (v :: rest)) as [s|] eqn:Hn.
  - destruct (Nat.lt_ge_cases (strlen s) 128) as [Hfit | Hlong].
    + rewrite !vxDo_outcome.
      * unfold target_name. rewrite <- Hname, Hn. cbn [tl]. rewrite Hpre.
        reflexivity.
      * intros s' Hs'. rewrite <- Hname in Hs'. inversion Hs'. subst s'.
        exact Hfit.
      * intros s' Hs'. rewrite Hn in Hs'. inversion Hs'. subst s'. exact Hfit.
    + rewrite (run_undefined _ _ _ (vxDo_overrun P tbl _ m e s Hn Hlong)).
      symmetry in Hname.
      rewrite (run_undefined _ _ _ (vxDo_overrun P tbl _ m e s Hname Hlong)).
      reflexivity.
  - rewrite !vxDo_outcome.
    + unfold target_name. rewrite <- Hname, Hn. cbn [tl]. rewrite Hpre.
      reflexivity.
    + intros s' Hs'. rewrite <- Hname in Hs'. discriminate.
    + intros s' Hs'. rewrite Hn in Hs'. discriminate.
Qed.

(** C8: when more than fifteen arguments follow the name, the call does
    exactly what it does with the first fifteen alone: same values
    returned, same memory, same log (so nothing is printed about the
    arguments dropped), and the argument array is not overrun.  Which
    arguments are dropped depends on their position only. *)
Theorem vxDo_excess_arguments_discarded (P : Platform) (tbl : SYMTAB)
        (name : TValue) (args extra : list TValue)
        (m : Z -> Z) (e : list event) :
  List.length args = 15%nat ->
  extra <> [] ->
  run (l_ExecuteLuaCommand P tbl) (mkState (name :: args ++ extra) m e)
  = run (l_ExecuteLuaCommand P tbl) (mkState (name :: args) m e)
  /\ run (l_ExecuteLuaCommand P tbl) (mkState (name :: args ++ extra) m e)
     <> Crashes ArgIndexOutOfBounds.
Proof.
  intros Hlen _. split.
  - apply vxDo_depends_on_prefix.
    rewrite firstn_app, Hlen. cbn [Nat.sub firstn]. apply app_nil_r.
  - destruct (vxDo_returns_or_overruns_name P tbl (name :: args ++ extra) m e)
      as [(vals & m' & evs & H) | H]; rewrite H; discriminate.
Qed.

Lemma vxDo_excess_arguments_discarded_witness :
  List.length (map Target.num [1; 2; 3; 4; 5; 6; 7; 8; 9; 10; 11; 12; 13; 14; 15])
  = 15%nat
  /\ [Target.num 16; TString "seventeen"] <> []
  /\ run (l_ExecuteLuaCommand Target.platform Target.elf_table)
       (Target.start
          (TString "add_two_ints"
           :: map Target.num [1; 2; 3; 4; 5; 6; 7; 8; 9; 10; 11; 12; 13; 14; 15]
              ++ [Target.num 16; TString "seventeen"]))
     = run (l_ExecuteLuaCommand Target.platform Target.elf_table)
         (Target.start
            (TString "add_two_ints"
             :: map Target.num [1; 2; 3; 4; 5; 6; 7; 8; 9; 10; 11; 12; 13; 14; 15]))
  /\ run (l_ExecuteLuaCommand Target.platform Target.elf_table)
       (Target.start
          (TString "add_two_ints"
           :: map Target.num [1; 2; 3; 4; 5; 6; 7; 8; 9; 10; 11; 12; 13; 14; 15]
              ++ [Target.num 16; TString "seventeen"]))
     <> Crashes ArgIndexOutOfBounds.
Proof.
  split; [reflexivity|]. split; [discriminate|].
  exact (vxDo_excess_arguments_discarded Target.platform Target.elf_table
           (TString "add_two_ints")
           (map Target.num [1; 2; 3; 4; 5; 6; 7; 8; 9; 10; 11; 12; 13; 14; 15])
           [Target.num 16; TString "seventeen"] Target.zeroed []
           eq_refl ltac:(discriminate)).
Defined.

(** ** Strings longer than the buffers *)

(** The prompt handed to the line reader is the first 127 characters of
    the argument: [strncpy] and the terminator keep it inside [prompt]. *)
Lemma vxReadLine_prompt_truncated (P : Platform) (s : string)
      (rest : list TValue) (m : Z -> Z) (e : list event) :
  run (l_vxReadLine P) (mkState (TString s :: rest) m e)
  = Returns [TString (c_str (sal_readline P (string_prefix 127 (c_str s))))] m
      (e ++ [EvReadline (string_prefix 127 (c_str s))])
  /\ (String.length (string_prefix 127 (c_str s)) <= 127)%nat.
Proof.
  split.
  - eapply run_one_result.
    exact (vxReadLine_run P (TString s :: rest) m e s eq_refl).
  - rewrite string_prefix_length. lia.
Qed.

Lemma strlen_letters (n : nat) : strlen (Target.letters n) = n.
Proof.
  unfold strlen. induction n as [|n IH]; [reflexivity|].
  cbn [Target.letters c_str]. change (Ascii.eqb "a" NUL) with false.
  cbn [String.length]. rewrite IH. reflexivity.
Qed.

(** C9 (as the code has it): a name of 128 characters or more is copied
    whole by [strcpy] into the 128 bytes of [symbol_name], in [vxDo],
    [vxGet] and [vxSet] alike: the copy runs past the end of the buffer;
    nothing truncates the name. *)
Theorem long_name_overruns_buffer (P : Platform) (tbl : SYMTAB) (s : string)
        (v : TValue) (rest : list TValue) (m : Z -> Z) (e : list event) :
  (128 <= strlen s)%nat ->
  run (l_ExecuteLuaCommand P tbl) (mkState (TString s :: rest) m e)
  = Crashes NameBufferOverrun
  /\ run (l_vxGet P tbl) (mkState (TString s :: rest) m e)
     = Crashes NameBufferOverrun
  /\ run (l_vxSet P tbl) (mkState (TString s :: v :: rest) m e)
     = Crashes NameBufferOverrun.
Proof.
  intros Hlong. repeat split; apply run_undefined.
  - apply vxDo_overrun with (s := s); [reflexivity | exact Hlong].
  - apply vxGet_overrun with (s := s); [reflexivity | exact Hlong].
  - apply vxSet_overrun with (s := s);
      [reflexivity | cbn [List.length]; lia | exact Hlong].
Qed.

Lemma long_name_overruns_buffer_witness :
  (128 <= strlen (Target.letters 128))%nat
  /\ run (l_ExecuteLuaCommand Target.platform Target.elf_table)
       (Target.start [TString (Target.letters 128)])
     = Crashes NameBufferOverrun
  /\ run (l_vxGet Target.platform Target.elf_table)
       (Target.start [TString (Target.letters 128)])
     = Crashes NameBufferOverrun
  /\ run (l_vxSet Target.platform Target.elf_table)
       (Target.start [TString (Target.letters 128); Target.num 1])
     = Crashes NameBufferOverrun.
Proof.
  split; [vm_compute; lia|].
  exact (long_name_overruns_buffer Target.platform Target.elf_table
           (Target.letters 128) (Target.num 1) [] Target.zeroed []
           ltac:(vm_compute; lia)).
Defined.

(** ** Calls without a name *)

(** C10 (as stated, refuted): a number is not a string, yet [vxDo(42)]
    assigns the target name: the text of the number is looked up and
    named in the diagnostic, not the initial contents of the buffer. *)
Lemma vxDo_number_as_name :
  ttype (Target.num 42) = LUA_TNUMBER
  /\ run (l_ExecuteLuaCommand Target.platform Target.elf_table)
       (Target.start [Target.num 42])
     = Returns [] Target.zeroed
         [EvSymFind "42"; EvPrintf (function_not_found "42")].
Proof. split; reflexivity. Qed.

(** C10 (amended): with an empty stack, or a first value that is neither
    a string nor a number, the name stays unset and the lookup is made with
    the initial contents of the buffer, the words [no function] in double
    quotes; when that is not in the table the diagnostic names it.  A
    number as first value is converted to its text, which becomes the
    name. *)
Theorem vxDo_placeholder_name (P : Platform) (tbl : SYMTAB)
        (L : list TValue) (m : Z -> Z) (e : list event) :
  (L = []
   \/ exists v rest, L = v :: rest
                     /\ ttype v <> LUA_TSTRING /\ ttype v <> LUA_TNUMBER) ->
  run (l_ExecuteLuaCommand P tbl) (mkState L m e)
  = let arg := argument_vector (map (slot_of P) (firstn 14 (tl L))) in
    match symFind tbl no_function with
    | Some sym =>
        Returns
          [TNumber (double_of_Z
                      (Word.to_int (fst (native P (sym_value sym) arg m))))]
          (snd (native P (sym_value sym) arg m))
          (e ++ [EvSymFind no_function; EvInvoke (sym_value sym) arg])
    | None =>
        Returns [] m
          (e ++ [EvSymFind no_function;
                 EvPrintf (function_not_found no_function)])
    end.
Proof.
  intros Hname.
  assert (Hn : name_of P L = None).
  { destruct Hname as [-> | (v & rest & -> & Hs & Hnum)]; [reflexivity|].
    destruct v; cbn in Hs, Hnum; try reflexivity; congruence. }
  rewrite vxDo_outcome.
  - cbv zeta. unfold target_name. rewrite Hn. reflexivity.
  - intros s Hs. rewrite Hn in Hs. discriminate.
Qed.

Lemma vxDo_placeholder_name_witness :
  (exists v rest, [TTable 3; Target.num 4] = v :: rest
                  /\ ttype v <> LUA_TSTRING /\ ttype v <> LUA_TNUMBER)
  /\ run (l_ExecuteLuaCommand Target.platform Target.elf_table)
       (Target.start [TTable 3; Target.num 4])
     = Returns [] Target.zeroed
         [EvSymFind no_function; EvPrintf (function_not_found no_function)].
Proof.
  assert (H : exists v rest, [TTable 3; Target.num 4] = v :: rest
                             /\ ttype v <> LUA_TSTRING /\ ttype v <> LUA_TNUMBER).
  { exists (TTable 3), [Target.num 4].
    split; [reflexivity|]. split; discriminate. }
  split; [exact H|].
  exact (vxDo_placeholder_name Target.platform Target.elf_table
           [TTable 3; Target.num 4] Target.zeroed [] (or_intror H)).
Defined.

(** A number as first value becomes the name, in its text form. *)
Lemma vxDo_number_name (P : Platform) (tbl : SYMTAB) (n : lua_Number)
      (rest : list TValue) (m : Z -> Z) (e : list event) :
  (strlen (lua_number2str P n) < 128)%nat ->
  symFind tbl (c_str (lua_number2str P n)) = None ->
  run (l_ExecuteLuaCommand P tbl) (mkState (TNumber n :: rest) m e)
  = Returns [] m
      (e ++ [EvSymFind (c_str (lua_number2str P n));
             EvPrintf (function_not_found (c_str (lua_number2str P n)))]).
Proof.
  intros Hfit Hfind. rewrite vxDo_outcome.
  - cbv zeta. unfold target_name. cbn [name_of]. rewrite Hfind. reflexivity.
  - cbn [name_of]. intros s' Hs'. inversion Hs'. subst s'. exact Hfit.
Qed.

(** ** Words in and out of a call *)

Lemma to_uint_range (z : Z) : 0 <= Word.to_uint z <= Word.UINT_MAX.
Proof.
  unfold Word.to_uint, Word.UINT_MAX, Word.modulus.
  pose proof (Z.mod_pos_bound z (2 ^ 32) ltac:(lia)). lia.
Qed.

Lemma to_int_range (z : Z) : Word.INT32_MIN <= Word.to_int z <= Word.INT32_MAX.
Proof.
  unfold Word.to_int. pose proof (to_uint_range z) as H.
  unfold Word.INT32_MIN, Word.INT32_MAX, Word.UINT_MAX, Word.modulus in *.
  destruct (Word.to_uint z <=? 2 ^ 31 - 1) eqn:Hc.
  - apply Z.leb_le in Hc. lia.
  - apply Z.leb_gt in Hc. lia.
Qed.

Lemma to_uint_to_int (z : Z) : Word.to_uint (Word.to_int z) = Word.to_uint z.
Proof.
  unfold Word.to_int.
  destruct (Word.to_uint z <=? Word.INT32_MAX).
  - unfold Word.to_uint. apply Z.mod_mod. unfold Word.modulus. lia.
  - unfold Word.to_uint.
    replace (z mod Word.modulus - Word.modulus)
      with (z mod Word.modulus + (-1) * Word.modulus) by lia.
    rewrite Z.mod_add by (unfold Word.modulus; lia).
    apply Z.mod_mod. unfold Word.modulus. lia.
Qed.

Lemma Qtrunc_inject_Z (z : Z) : Qtrunc (inject_Z z) = z.
Proof. unfold Qtrunc, inject_Z. cbn [Qnum Qden]. apply Z.quot_1_r. Qed.

Lemma slot_of_range (P : Platform) (v : TValue) :
  0 <= slot_of P v <= Word.UINT_MAX.
Proof.
  destruct v as [ | [|] | p | n | s | p | c p | p | p ]; cbn [slot_of];
    try (unfold Word.UINT_MAX; lia); try apply to_uint_range.
  destruct (luaO_str2d P s); apply to_uint_range.
Qed.

Lemma argument_vector_length (zs : list Z) :
  (List.length zs <= 15)%nat -> List.length (argument_vector zs) = 15%nat.
Proof.
  intros H. unfold argument_vector. rewrite length_app, repeat_length. lia.
Qed.

Lemma argument_vector_range (P : Platform) (vals : list TValue) :
  Forall (fun w => 0 <= w <= Word.UINT_MAX)
    (argument_vector (map (slot_of P) vals)).
Proof.
  unfold argument_vector. apply Forall_app. split.
  - apply Forall_forall. intros w Hw. apply in_map_iff in Hw.
    destruct Hw as (v & <- & _). apply slot_of_range.
  - apply Forall_forall. intros w Hw. apply repeat_spec in Hw. subst w.
    unfold Word.UINT_MAX. lia.
Qed.

Lemma vxDo_invokes_with_arguments_witness :
  (strlen "add_two_ints" < 128)%nat
  /\ (List.length [Target.num 2; Target.num 3] <= 14)%nat
  /\ run (l_ExecuteLuaCommand Target.platform Target.elf_table)
       (Target.start [TString "add_two_ints"; Target.num 2; Target.num 3])
     = Returns [Target.num 5] Target.zeroed
         [EvSymFind "add_two_ints";
          EvInvoke Target.add_two_ints_addr
            [2; 3; 0; 0; 0; 0; 0; 0; 0; 0; 0; 0; 0; 0; 0]].
Proof.
  split; [cbn; lia|]. split; [cbn; lia|].
  exact (vxDo_invokes_with_arguments Target.platform Target.elf_table
           "add_two_ints"
           (mkSymbol "add_two_ints" Target.add_two_ints_addr N_TEXT)
           [Target.num 2; Target.num 3] Target.zeroed []
           ltac:(cbn; lia) eq_refl ltac:(cbn; lia)).
Defined.

Lemma marshal_argument_by_type_witness :
  index2adr [TString "f"; TBoolean true; TString "Hello You!"] 3
  = Some (TString "Hello You!")
  /\ marshal_argument Target.platform 3
       (Target.start [TString "f"; TBoolean true; TString "Hello You!"])
     = Done (Word.to_uint (getstr Target.platform "Hello You!"))
         (Target.start [TString "f"; TBoolean true; TString "Hello You!"]).
Proof.
  split; [reflexivity|].
  exact (marshal_argument_by_type Target.platform
           [TString "f"; TBoolean true; TString "Hello You!"] 3
           (TString "Hello You!") Target.zeroed [] eq_refl).
Defined.

(** A call whose name resolves, as the script sees it. *)
Lemma vxDo_resolved (P : Platform) (tbl : SYMTAB) (s : string)
      (sym : SYMBOL) (rest : list TValue) (m : Z -> Z) (e : list event) :
  (strlen s < 128)%nat ->
  symFind tbl (c_str s) = Some sym ->
  run (l_ExecuteLuaCommand P tbl) (mkState (TString s :: rest) m e)
  = Returns
      [TNumber (double_of_Z
                  (Word.to_int
                     (fst (native P (sym_value sym)
                             (argument_vector
                                (map (slot_of P) (firstn 14 rest))) m))))]
      (snd (native P (sym_value sym)
              (argument_vector (map (slot_of P) (firstn 14 rest))) m))
      (e ++ [EvSymFind (c_str s);
             EvInvoke (sym_value sym)
               (argument_vector (map (slot_of P) (firstn 14 rest)))]).
Proof.
  intros Hfit Hfind. rewrite vxDo_outcome.
  - cbv zeta. unfold target_name. cbn [name_of tl]. rewrite Hfind. reflexivity.
  - cbn [name_of]. intros s' Hs'. inversion Hs'. subst s'. exact Hfit.
Qed.

(** Whatever the arguments and whatever the native code returns, a call
    that resolves enters the native code with exactly fifteen words, each
    an [unsigned int], and hands the script an integer in the range of
    [int]. *)
Theorem vxDo_fifteen_words_int_result (P : Platform) (tbl : SYMTAB)
        (s : string) (sym : SYMBOL) (rest : list TValue)
        (m : Z -> Z) (e : list event) :
  (strlen s < 128)%nat ->
  symFind tbl (c_str s) = Some sym ->
  exists arg r m',
    run (l_ExecuteLuaCommand P tbl) (mkState (TString s :: rest) m e)
    = Returns [TNumber (double_of_Z r)] m'
        (e ++ [EvSymFind (c_str s); EvInvoke (sym_value sym) arg])
    /\ List.length arg = 15%nat
    /\ Forall (fun w => 0 <= w <= Word.UINT_MAX) arg
    /\ Word.INT32_MIN <= r <= Word.INT32_MAX.
Proof.
  intros Hfit Hfind.
  exists (argument_vector (map (slot_of P) (firstn 14 rest))).
  eexists. eexists. split; [|split; [|split]].
  - rewrite vxDo_outcome.
    + cbv zeta. unfold target_name. cbn [name_of tl]. rewrite Hfind.
      reflexivity.
    + cbn [name_of]. intros s' Hs'. inversion Hs'. subst s'. exact Hfit.
  - apply argument_vector_length. rewrite length_map, length_firstn. lia.
  - apply argument_vector_range.
  - apply to_int_range.
Qed.

Lemma vxDo_fifteen_words_int_result_witness :
  (strlen "add_two_ints" < 128)%nat
  /\ exists arg r m',
      run (l_ExecuteLuaCommand Target.platform Target.elf_table)
        (Target.start [TString "add_two_ints"; Target.num (-1); Target.num 0])
      = Returns [TNumber (double_of_Z r)] m'
          ([] ++ [EvSymFind (c_str "add_two_ints");
                  EvInvoke Target.add_two_ints_addr arg])
      /\ List.length arg = 15%nat
      /\ Forall (fun w => 0 <= w <= Word.UINT_MAX) arg
      /\ Word.INT32_MIN <= r <= Word.INT32_MAX.
Proof.
  split; [cbn; lia|].
  exact (vxDo_fifteen_words_int_result Target.platform Target.elf_table
           "add_two_ints"
           (mkSymbol "add_two_ints" Target.add_two_ints_addr N_TEXT)
           [Target.num (-1); Target.num 0] Target.zeroed []
           ltac:(cbn; lia) eq_refl).
Defined.

(** A negative argument reaches the native code as its two's complement,
    and a native result with the top bit set reaches the script as a
    negative number. *)
Example vxDo_minus_one :
  run (l_ExecuteLuaCommand Target.platform Target.elf_table)
    (Target.start [TString "add_two_ints"; Target.num (-1); Target.num 0])
  = Returns [Target.num (-1)] Target.zeroed
      [EvSymFind "add_two_ints";
       EvInvoke Target.add_two_ints_addr
         [4294967295; 0; 0; 0; 0; 0; 0; 0; 0; 0; 0; 0; 0; 0; 0]].
Proof. reflexivity. Qed.

(** The number a call returns, given back as an argument of a later call,
    arrives as the word the native code had returned (modulo 2^32): an
    address obtained from one call can be passed to the next, also when
    its top bit is set and the script sees it as a negative number. *)
Theorem vxDo_result_as_argument (P : Platform) (tbl : SYMTAB)
        (s1 s2 : string) (sym1 sym2 : SYMBOL) (args : list TValue)
        (m : Z -> Z) (e : list event) :
  (strlen s1 < 128)%nat ->
  (strlen s2 < 128)%nat ->
  symFind tbl (c_str s1) = Some sym1 ->
  symFind tbl (c_str s2) = Some sym2 ->
  (List.length args <= 14)%nat ->
  let word :=
    fst (native P (sym_value sym1) (argument_vector (map (slot_of P) args)) m) in
  exists v m1 e1,
    run (l_ExecuteLuaCommand P tbl) (mkState (TString s1 :: args) m e)
    = Returns [v] m1 e1
    /\ exists vals m2,
        run (l_ExecuteLuaCommand P tbl) (mkState [TString s2; v] m1 e1)
        = Returns vals m2
            (e1 ++ [EvSymFind (c_str s2);
                    EvInvoke (sym_value sym2)
                      (Word.to_uint word :: repeat 0 14)]).
Proof.
  intros Hfit1 Hfit2 Hfind1 Hfind2 Hlen word.
  eexists. eexists. eexists. split.
  - rewrite (vxDo_resolved P tbl s1 sym1 _ _ _ Hfit1 Hfind1).
    rewrite firstn_all2 by exact Hlen. reflexivity.
  - eexists. eexists.
    rewrite (vxDo_resolved P tbl s2 sym2 _ _ _ Hfit2 Hfind2).
    cbn [firstn map slot_of].
    unfold double_to_int32, double_of_Z, double_to_integer.
    rewrite Qtrunc_inject_Z.
    pose proof (to_int_range word) as [Hlo Hhi].
    apply Z.leb_le in Hlo. apply Z.leb_le in Hhi.
    fold word. rewrite Hlo, Hhi. cbn [andb].
    rewrite to_uint_to_int. reflexivity.
Qed.

Lemma vxDo_result_as_argument_witness :
  (strlen "add_two_ints" < 128)%nat
  /\ (strlen "LuaStringTest" < 128)%nat
  /\ (List.length [Target.num 2147483647; Target.num 1] <= 14)%nat
  /\ exists v m1 e1,
      run (l_ExecuteLuaCommand Target.platform Target.elf_table)
        (Target.start
           [TString "add_two_ints"; Target.num 2147483647; Target.num 1])
      = Returns [v] m1 e1
      /\ exists vals m2,
          run (l_ExecuteLuaCommand Target.platform Target.elf_table)
            (mkState [TString "LuaStringTest"; v] m1 e1)
          = Returns vals m2
              (e1 ++ [EvSymFind (c_str "LuaStringTest");
                      EvInvoke Target.LuaStringTest_addr
                        (2147483648 :: repeat 0 14)]).
Proof.
  split; [cbn; lia|]. split; [cbn; lia|]. split; [cbn; lia|].
  exact (vxDo_result_as_argument Target.platform Target.elf_table
           "add_two_ints" "LuaStringTest"
           (mkSymbol "add_two_ints" Target.add_two_ints_addr N_TEXT)
           (mkSymbol "LuaStringTest" Target.LuaStringTest_addr N_TEXT)
           [Target.num 2147483647; Target.num 1] Target.zeroed []
           ltac:(cbn; lia) ltac:(cbn; lia) eq_refl eq_refl ltac:(cbn; lia)).
Defined.

(** ** Global variables: edges *)

Lemma name_of_unset (P : Platform) (L : list TValue) :
  (L = []
   \/ exists v rest, L = v :: rest
                     /\ ttype v <> LUA_TSTRING /\ ttype v <> LUA_TNUMBER) ->
  name_of P L = None.
Proof.
  intros [-> | (v & rest & -> & Hs & Hn)]; [reflexivity|].
  destruct v; cbn in Hs, Hn; try reflexivity; congruence.
Qed.

Lemma vxSet_without_name (P : Platform) (tbl : SYMTAB) (L : list TValue)
      (m : Z -> Z) (e : list event) :
  name_of P L = None ->
  l_vxSet P tbl (mkState L m e) = Done 0%nat (mkState L m e).
Proof.
  intros Hn. unfold l_vxSet.
  rewrite (bind_Done _ _ _ (mkState L m e) (List.length L)) by reflexivity.
  rewrite (bind_Done _ _ _ _ _ (first_argument_name_error P L m e)).
  rewrite Hn. cbv beta iota zeta.
  destruct (List.length L <? 2)%nat; reflexivity.
Qed.

Lemma vxGet_retry_overrun (P : Platform) (tbl : SYMTAB) (L : list TValue)
      (m : Z -> Z) (e : list event) (s : string) :
  name_of P L = Some s ->
  (strlen s < 128)%nat ->
  symFind tbl (c_str s) = None ->
  (127 <= strlen s)%nat ->
  l_vxGet P tbl (mkState L m e) = Undefined NameBufferOverrun.
Proof.
  intros Hn Hfit Hfind Hlong. unfold l_vxGet.
  rewrite (bind_Done _ _ _ (mkState L m e) (List.length L)) by reflexivity.
  rewrite (bind_Done _ _ _ _ _ (first_argument_name_error P L m e)).
  rewrite Hn. cbv beta iota zeta. change (0 =? 0) with true. cbv iota.
  rewrite (bind_Done _ _ _ _ _ (strcpy_fits 128 s _ Hfit)).
  unfold symFindByName at 1. unfold log, bind at 1 2, ret at 1.
  cbn [lua_stack memory events]. rewrite Hfind.
  rewrite (bind_Done _ _ _ _ "_"%string (strcpy_fits 128 "_" _ ltac:(cbn; lia))).
  unfold lift_option at 1.
  rewrite (bind_Done _ _ _ _ s (eq_refl _)).
  apply bind_Undefined. apply strcat_underscore_overrun. exact Hlong.
Qed.

Lemma vxSet_retry_overrun (P : Platform) (tbl : SYMTAB) (L : list TValue)
      (m : Z -> Z) (e : list event) (s : string) :
  name_of P L = Some s ->
  (2 <= List.length L)%nat ->
  (strlen s < 128)%nat ->
  symFind tbl (c_str s) = None ->
  (127 <= strlen s)%nat ->
  l_vxSet P tbl (mkState L m e) = Undefined NameBufferOverrun.
Proof.
  intros Hn Hargs Hfit Hfind Hlong. unfold l_vxSet.
  rewrite (bind_Done _ _ _ (mkState L m e) (List.length L)) by reflexivity.
  rewrite (bind_Done _ _ _ _ _ (first_argument_name_error P L m e)).
  rewrite Hn. cbv beta iota zeta.
  assert (Hlt : (List.length L <? 2)%nat = false) by (apply Nat.ltb_ge; lia).
  rewrite Hlt. change (0 =? 0) with true. cbv iota.
  rewrite (bind_Done _ _ _ _ _ (strcpy_fits 128 s _ Hfit)).
  unfold symFindByName at 1. unfold log, bind at 1 2, ret at 1.
  cbn [lua_stack memory events]. rewrite Hfind.
  rewrite (bind_Done _ _ _ _ "_"%string (strcpy_fits 128 "_" _ ltac:(cbn; lia))).
  unfold lift_option at 1.
  rewrite (bind_Done _ _ _ _ s (eq_refl _)).
  apply bind_Undefined. apply strcat_underscore_overrun. exact Hlong.
Qed.

Lemma symFind_In (tbl : SYMTAB) (name : string) (sym : SYMBOL) :
  symFind tbl name = Some sym -> In sym tbl.
Proof.
  induction tbl as [|x tbl IH]; cbn [symFind]; [discriminate|].
  destruct (String.eqb (sym_name x) name).
  - intros H. inversion H. left. reflexivity.
  - intros H. right. apply IH. exact H.
Qed.

Lemma double_to_uint_range (P : Platform) (d : lua_Number) :
  0 <= double_to_uint P d <= Word.UINT_MAX.
Proof.
  unfold double_to_uint, double_to_integer.
  destruct d as [q| | |]; try apply to_uint_range.
  destruct (0 <=? Qtrunc q) eqn:Hlo; cbn [andb]; [|apply to_uint_range].
  destruct (Qtrunc q <=? Word.UINT_MAX) eqn:Hhi; [|apply to_uint_range].
  apply Z.leb_le in Hlo. apply Z.leb_le in Hhi. lia.
Qed.

(** [vxGet] and [vxSet] without a name: on an empty stack, or with a first
    value that is neither a string nor a number, both return no value, make
    no lookup, print nothing and leave the memory alone, however many
    values follow. *)
Theorem vxGet_vxSet_without_name (P : Platform) (tbl : SYMTAB)
        (L : list TValue) (m : Z -> Z) (e : list event) :
  (L = []
   \/ exists v rest, L = v :: rest
                     /\ ttype v <> LUA_TSTRING /\ ttype v <> LUA_TNUMBER) ->
  run (l_vxGet P tbl) (mkState L m e) = Returns [] m e
  /\ run (l_vxSet P tbl) (mkState L m e) = Returns [] m e.
Proof.
  intros HL. apply (name_of_unset P) in HL. split.
  - eapply run_no_result. apply vxGet_without_name. exact HL.
  - eapply run_no_result. apply vxSet_without_name. exact HL.
Qed.

Lemma vxGet_vxSet_without_name_witness :
  (exists v rest, [TNil; Target.num 5] = v :: rest
                  /\ ttype v <> LUA_TSTRING /\ ttype v <> LUA_TNUMBER)
  /\ run (l_vxGet Target.platform Target.elf_table)
       (Target.start [TNil; Target.num 5])
     = Returns [] Target.zeroed []
  /\ run (l_vxSet Target.platform Target.elf_table)
       (Target.start [TNil; Target.num 5])
     = Returns [] Target.zeroed [].
Proof.
  assert (H : exists v rest, [TNil; Target.num 5] = v :: rest
                             /\ ttype v <> LUA_TSTRING /\ ttype v <> LUA_TNUMBER).
  { exists TNil, [Target.num 5]. split; [reflexivity|]. split; discriminate. }
  split; [exact H|].
  exact (vxGet_vxSet_without_name Target.platform Target.elf_table
           [TNil; Target.num 5] Target.zeroed [] (or_intror H)).
Defined.

(** A name of exactly 127 characters fits [symbol_name] as written but not
    with the underscore in front: when it is not in the table as written,
    [vxGet] and [vxSet] overrun the buffer in [strcat], where [vxDo], which
    has no second spelling, reports the function missing. *)
Theorem name_of_127_characters (P : Platform) (tbl : SYMTAB) (s : string)
        (v : TValue) (rest : list TValue) (m : Z -> Z) (e : list event) :
  strlen s = 127%nat ->
  symFind tbl (c_str s) = None ->
  run (l_vxGet P tbl) (mkState (TString s :: rest) m e)
  = Crashes NameBufferOverrun
  /\ run (l_vxSet P tbl) (mkState (TString s :: v :: rest) m e)
     = Crashes NameBufferOverrun
  /\ run (l_ExecuteLuaCommand P tbl) (mkState (TString s :: rest) m e)
     = Returns [] m
         (e ++ [EvSymFind (c_str s); EvPrintf (function_not_found (c_str s))]).
Proof.
  intros Hlen Hfind. split; [|split].
  - apply run_undefined.
    apply vxGet_retry_overrun with (s := s);
      [reflexivity | lia | exact Hfind | lia].
  - apply run_undefined.
    apply vxSet_retry_overrun with (s := s);
      [reflexivity | cbn [List.length]; lia | lia | exact Hfind | lia].
  - rewrite vxDo_outcome.
    + cbv zeta. unfold target_name. cbn [name_of]. rewrite Hfind. reflexivity.
    + cbn [name_of]. intros s' Hs'. inversion Hs'. subst s'. lia.
Qed.

Lemma name_of_127_characters_witness :
  strlen (Target.letters 127) = 127%nat
  /\ symFind Target.elf_table (c_str (Target.letters 127)) = None
  /\ run (l_vxGet Target.platform Target.elf_table)
       (Target.start [TString (Target.letters 127)])
     = Crashes NameBufferOverrun
  /\ run (l_vxSet Target.platform Target.elf_table)
       (Target.start [TString (Target.letters 127); Target.num 1])
     = Crashes NameBufferOverrun
  /\ run (l_ExecuteLuaCommand Target.platform Target.elf_table)
       (Target.start [TString (Target.letters 127)])
     = Returns [] Target.zeroed
         ([] ++ [EvSymFind (c_str (Target.letters 127));
                 EvPrintf (function_not_found (c_str (Target.letters 127)))]).
Proof.
  split; [vm_compute; reflexivity|]. split; [vm_compute; reflexivity|].
  exact (name_of_127_characters Target.platform Target.elf_table
           (Target.letters 127) (Target.num 1) [] Target.zeroed []
           ltac:(vm_compute; reflexivity) ltac:(vm_compute; reflexivity)).
Defined.

(** [vxGet] never changes the memory and returns at most one value. *)
Theorem vxGet_leaves_memory (P : Platform) (tbl : SYMTAB) (L : list TValue)
        (m m' : Z -> Z) (e evs : list event) (vals : list TValue) :
  run (l_vxGet P tbl) (mkState L m e) = Returns vals m' evs ->
  m' = m /\ (List.length vals <= 1)%nat.
Proof.
  intros Hrun.
  destruct (name_of P L) as [s|] eqn:Hn.
  - destruct (Nat.lt_ge_cases (strlen s) 128) as [Hfit | Hlong].
    2:{ rewrite (run_undefined _ _ _ (vxGet_overrun P tbl L m e s Hn Hlong))
          in Hrun. discriminate. }
    destruct (symFind tbl (c_str s)) as [sym|] eqn:Hfind.
    + pose proof (vxGet_run P tbl L m e s Hn Hfit
                    ltac:(intros H; rewrite H in Hfind; discriminate)) as H.
      rewrite Hfind in H. rewrite (run_one_result _ _ _ _ _ _ H) in Hrun.
      inversion Hrun. split; [reflexivity | cbn; lia].
    + destruct (Nat.lt_ge_cases (strlen s) 127) as [Hfit' | Hlong].
      2:{ rewrite (run_undefined _ _ _
                     (vxGet_retry_overrun P tbl L m e s Hn Hfit Hfind Hlong))
            in Hrun. discriminate. }
      pose proof (vxGet_run P tbl L m e s Hn Hfit (fun _ => Hfit')) as H.
      rewrite Hfind in H.
      destruct (symFind tbl (String "_" (c_str s))) as [sym|].
      * rewrite (run_one_result _ _ _ _ _ _ H) in Hrun.
        inversion Hrun. split; [reflexivity | cbn; lia].
      * rewrite (run_no_result _ _ _ _ _ H) in Hrun.
        inversion Hrun. split; [reflexivity | cbn; lia].
  - rewrite (run_no_result _ _ _ _ _ (vxGet_without_name P tbl L m e Hn))
      in Hrun.
    inversion Hrun. split; [reflexivity | cbn; lia].
Qed.

Lemma vxGet_leaves_memory_witness :
  run (l_vxGet Target.platform Target.elf_table)
    (Target.start [TString "LuaTestVariable"])
  = Returns [Target.num 0] Target.zeroed
      [EvSymFind "LuaTestVariable"; EvLoad Target.LuaTestVariable_addr]
  /\ Target.zeroed = Target.zeroed
  /\ (List.length [Target.num 0] <= 1)%nat.
Proof.
  split; [reflexivity|].
  exact (vxGet_leaves_memory Target.platform Target.elf_table
           [TString "LuaTestVariable"] Target.zeroed Target.zeroed []
           [EvSymFind "LuaTestVariable"; EvLoad Target.LuaTestVariable_addr]
           [Target.num 0] eq_refl).
Defined.

(** [vxSet] never returns a value, and it changes at most one word of the
    memory: the one at the address of a symbol of the table, which then
    holds an [unsigned int]. *)
Theorem vxSet_writes_one_symbol_word (P : Platform) (tbl : SYMTAB)
        (L : list TValue) (m m' : Z -> Z) (e evs : list event)
        (vals : list TValue) :
  run (l_vxSet P tbl) (mkState L m e) = Returns vals m' evs ->
  vals = []
  /\ (m' = m
      \/ exists sym w,
          In sym tbl /\ 0 <= w <= Word.UINT_MAX
          /\ m' = fun a => if a =? sym_value sym then w else m a).
Proof.
  intros Hrun.
  destruct (name_of P L) as [s|] eqn:Hn.
  2:{ rewrite (run_no_result _ _ _ _ _ (vxSet_without_name P tbl L m e Hn))
        in Hrun.
      inversion Hrun. split; [reflexivity | left; reflexivity]. }
  destruct (Nat.lt_ge_cases (List.length L) 2) as [Hfew | Hargs].
  { rewrite (run_no_result _ _ _ _ _ (vxSet_too_few P tbl L m e Hfew)) in Hrun.
    inversion Hrun. split; [reflexivity | left; reflexivity]. }
  destruct (Nat.lt_ge_cases (strlen s) 128) as [Hfit | Hlong].
  2:{ rewrite (run_undefined _ _ _ (vxSet_overrun P tbl L m e s Hn Hargs Hlong))
        in Hrun. discriminate. }
  destruct (symFind tbl (c_str s)) as [sym|] eqn:Hfind.
  - pose proof (vxSet_run P tbl L m e s Hn Hargs Hfit
                  ltac:(intros H; rewrite H in Hfind; discriminate)) as H.
    cbv zeta in H. rewrite Hfind in H.
    rewrite (run_no_result _ _ _ _ _ H) in Hrun. inversion Hrun.
    split; [reflexivity|]. right. eexists. eexists.
    split; [eapply symFind_In; exact Hfind|].
    split; [apply double_to_uint_range | reflexivity].
  - destruct (Nat.lt_ge_cases (strlen s) 127) as [Hfit' | Hlong].
    2:{ rewrite (run_undefined _ _ _
                   (vxSet_retry_overrun P tbl L m e s Hn Hargs Hfit Hfind Hlong))
          in Hrun. discriminate. }
    pose proof (vxSet_run P tbl L m e s Hn Hargs Hfit (fun _ => Hfit')) as H.
    cbv zeta in H. rewrite Hfind in H.
    destruct (symFind tbl (String "_" (c_str s))) as [sym|] eqn:Hfind'.
    + rewrite (run_no_result _ _ _ _ _ H) in Hrun. inversion Hrun.
      split; [reflexivity|]. right. eexists. eexists.
      split; [eapply symFind_In; exact Hfind'|].
      split; [apply double_to_uint_range | reflexivity].
    + rewrite (run_no_result _ _ _ _ _ H) in Hrun. inversion Hrun.
      split; [reflexivity | left; reflexivity].
Qed.

Lemma vxSet_writes_one_symbol_word_witness :
  run (l_vxSet Target.platform Target.elf_table)
    (Target.start [TString "LuaTestVariable"; Target.num 321])
  = Returns []
      (fun a => if a =? Target.LuaTestVariable_addr then 321
                else Target.zeroed a)
      [EvSymFind "LuaTestVariable"; EvStore Target.LuaTestVariable_addr 321]
  /\ ([] : list TValue) = []
  /\ ((fun a => if a =? Target.LuaTestVariable_addr then 321
                else Target.zeroed a) = Target.zeroed
      \/ exists sym w,
          In sym Target.elf_table /\ 0 <= w <= Word.UINT_MAX
          /\ (fun a => if a =? Target.LuaTestVariable_addr then 321
                       else Target.zeroed a)
             = fun a => if a =? sym_value sym then w else Target.zeroed a).
Proof.
  split; [reflexivity|].
  exact (vxSet_writes_one_symbol_word Target.platform Target.elf_table
           [TString "LuaTestVariable"; Target.num 321] Target.zeroed
           (fun a => if a =? Target.LuaTestVariable_addr then 321
                     else Target.zeroed a)
           []
           [EvSymFind "LuaTestVariable"; EvStore Target.LuaTestVariable_addr 321]
           [] eq_refl).
Defined.

(** What [vxGet] and [vxSet] do with a name that resolves, as written or
    with the underscore. *)
Lemma vxGet_resolved (P : Platform) (tbl : SYMTAB) (s : string) (sym : SYMBOL)
      (rest : list TValue) (m : Z -> Z) (e : list event) :
  (strlen s < 128)%nat ->
  (symFind tbl (c_str s) = None -> (strlen s < 127)%nat) ->
  (symFind tbl (c_str s) = Some sym
   \/ (symFind tbl (c_str s) = None
       /\ symFind tbl (String "_" (c_str s)) = Some sym)) ->
  exists evs,
    run (l_vxGet P tbl) (mkState (TString s :: rest) m e)
    = Returns [TNumber (double_of_Z (m (sym_value sym)))] m evs.
Proof.
  intros Hfit Hfit' Hres.
  pose proof (vxGet_run P tbl (TString s :: rest) m e s eq_refl Hfit Hfit') as H.
  destruct Hres as [Hv | [Hv Hu]].
  - rewrite Hv in H. eexists. eapply run_one_result. exact H.
  - rewrite Hv, Hu in H. eexists. eapply run_one_result. exact H.
Qed.

Lemma vxSet_resolved (P : Platform) (tbl : SYMTAB) (s : string) (sym : SYMBOL)
      (v : TValue) (rest : list TValue) (m : Z -> Z) (e : list event) :
  (strlen s < 128)%nat ->
  (symFind tbl (c_str s) = None -> (strlen s < 127)%nat) ->
  (symFind tbl (c_str s) = Some sym
   \/ (symFind tbl (c_str s) = None
       /\ symFind tbl (String "_" (c_str s)) = Some sym)) ->
  exists evs,
    run (l_vxSet P tbl) (mkState (TString s :: v :: rest) m e)
    = Returns []
        (fun a => if a =? sym_value sym
                  then double_to_uint P (number_at P (TString s :: v :: rest) 2)
                  else m a)
        evs.
Proof.
  intros Hfit Hfit' Hres.
  pose proof (vxSet_run P tbl (TString s :: v :: rest) m e s eq_refl
                ltac:(cbn [List.length]; lia) Hfit Hfit') as H.
  cbv zeta in H.
  destruct Hres as [Hv | [Hv Hu]].
  - rewrite Hv in H. eexists. eapply run_no_result. exact H.
  - rewrite Hv, Hu in H. eexists. eapply run_no_result. exact H.
Qed.

(** Writing back what was read changes nothing: when the word at the
    symbol's address is an [unsigned int], [vxSet] of the number [vxGet]
    returned leaves every word of the memory as it was. *)
Theorem vxSet_of_vxGet_is_identity (P : Platform) (tbl : SYMTAB) (s : string)
        (sym : SYMBOL) (m : Z -> Z) (e e' : list event) :
  (strlen s < 128)%nat ->
  (symFind tbl (c_str s) = None -> (strlen s < 127)%nat) ->
  (symFind tbl (c_str s) = Some sym
   \/ (symFind tbl (c_str s) = None
       /\ symFind tbl (String "_" (c_str s)) = Some sym)) ->
  0 <= m (sym_value sym) <= Word.UINT_MAX ->
  exists v evs,
    run (l_vxGet P tbl) (mkState [TString s] m e) = Returns [v] m evs
    /\ exists m' evs',
        run (l_vxSet P tbl) (mkState [TString s; v] m e') = Returns [] m' evs'
        /\ forall a, m' a = m a.
Proof.
  intros Hfit Hfit' Hres Hword.
  destruct (vxGet_resolved P tbl s sym [] m e Hfit Hfit' Hres) as [evs Hget].
  eexists. exists evs. split; [exact Hget|].
  destruct (vxSet_resolved P tbl s sym
              (TNumber (double_of_Z (m (sym_value sym)))) [] m e'
              Hfit Hfit' Hres) as [evs' Hset].
  eexists. exists evs'. split; [exact Hset|].
  intros a. cbv beta.
  destruct (a =? sym_value sym) eqn:Ha; [|reflexivity].
  apply Z.eqb_eq in Ha. subst a.
  unfold number_at, tonumber, index2adr. cbn [nth_error].
  unfold double_to_uint, double_of_Z, double_to_integer.
  rewrite Qtrunc_inject_Z.
  destruct Hword as [Hlo Hhi].
  apply Z.leb_le in Hlo. apply Z.leb_le in Hhi. rewrite Hlo, Hhi. reflexivity.
Qed.

Lemma vxSet_of_vxGet_is_identity_witness :
  (strlen "LuaTestVariable" < 128)%nat
  /\ 0 <= Target.zeroed Target.LuaTestVariable_addr <= Word.UINT_MAX
  /\ exists v evs,
      run (l_vxGet Target.platform Target.aout_table)
        (mkState [TString "LuaTestVariable"] Target.zeroed [])
      = Returns [v] Target.zeroed evs
      /\ exists m' evs',
          run (l_vxSet Target.platform Target.aout_table)
            (mkState [TString "LuaTestVariable"; v] Target.zeroed [])
          = Returns [] m' evs'
          /\ forall a, m' a = Target.zeroed a.
Proof.
  split; [cbn; lia|]. split; [vm_compute; split; discriminate|].
  exact (vxSet_of_vxGet_is_identity Target.platform Target.aout_table
           "LuaTestVariable"
           (mkSymbol "_LuaTestVariable" Target.LuaTestVariable_addr N_DATA)
           Target.zeroed [] []
           ltac:(cbn; lia) (fun _ => ltac:(cbn; lia))
           (or_intror (conj eq_refl eq_refl))
           ltac:(vm_compute; split; discriminate)).
Defined.

(** [vxSet] with a value that is not a number and does not convert to one
    ([nil], a boolean, a table, a string that is not numeric) stores 0:
    [lua_tonumber] answers 0 and nothing checks the type of the value. *)
Theorem vxSet_not_a_number_stores_zero (P : Platform) (tbl : SYMTAB)
        (s : string) (sym : SYMBOL) (v : TValue) (rest : list TValue)
        (m : Z -> Z) (e : list event) :
  (strlen s < 128)%nat ->
  (symFind tbl (c_str s) = None -> (strlen s < 127)%nat) ->
  (symFind tbl (c_str s) = Some sym
   \/ (symFind tbl (c_str s) = None
       /\ symFind tbl (String "_" (c_str s)) = Some sym)) ->
  tonumber P (Some v) = None ->
  exists evs,
    run (l_vxSet P tbl) (mkState (TString s :: v :: rest) m e)
    = Returns [] (fun a => if a =? sym_value sym then 0 else m a) evs.
Proof.
  intros Hfit Hfit' Hres Hv.
  destruct (vxSet_resolved P tbl s sym v rest m e Hfit Hfit' Hres) as [evs H].
  exists evs. rewrite H.
  unfold number_at, index2adr. cbn [nth_error]. rewrite Hv.
  reflexivity.
Qed.

Lemma vxSet_not_a_number_stores_zero_witness :
  (strlen "LuaTestVariable" < 128)%nat
  /\ tonumber Target.platform (Some (TString "three")) = None
  /\ exists evs,
      run (l_vxSet Target.platform Target.elf_table)
        (mkState [TString "LuaTestVariable"; TString "three"]
           (fun _ => 321) [])
      = Returns []
          (fun a => if a =? Target.LuaTestVariable_addr then 0 else 321) evs.
Proof.
  split; [cbn; lia|]. split; [reflexivity|].
  exact (vxSet_not_a_number_stores_zero Target.platform Target.elf_table
           "LuaTestVariable"
           (mkSymbol "LuaTestVariable" Target.LuaTestVariable_addr N_BSS)
           (TString "three") [] (fun _ => 321) []
           ltac:(cbn; lia) (fun _ => ltac:(cbn; lia))
           (or_introl eq_refl) eq_refl).
Defined.

(** ** Names with a NUL inside *)

Lemma c_str_idempotent (s : string) : c_str (c_str s) = c_str s.
Proof.
  induction s as [|c r IH]; [reflexivity|].
  cbn [c_str]. destruct (Ascii.eqb c NUL) eqn:Hc; [reflexivity|].
  cbn [c_str]. rewrite Hc, IH. reflexivity.
Qed.

Lemma c_str_cut (s junk : string) :
  c_str (c_str s ++ String NUL junk) = c_str s.
Proof.
  induction s as [|c r IH]; [reflexivity|].
  cbn [c_str]. destruct (Ascii.eqb c NUL) eqn:Hc; [reflexivity|].
  cbn [append c_str]. rewrite Hc, IH. reflexivity.
Qed.

(** A call is decided by the C string of its name and the fourteen values
    after it. *)
Lemma vxDo_depends_on_c_str (P : Platform) (tbl : SYMTAB) (s s' : string)
      (rest : list TValue) (m : Z -> Z) (e : list event) :
  c_str s = c_str s' ->
  run (l_ExecuteLuaCommand P tbl) (mkState (TString s :: rest) m e)
  = run (l_ExecuteLuaCommand P tbl) (mkState (TString s' :: rest) m e).
Proof.
  intros Heq.
  assert (Hlen : strlen s = strlen s') by (unfold strlen; rewrite Heq; reflexivity).
  destruct (Nat.lt_ge_cases (strlen s) 128) as [Hfit | Hlong].
  - rewrite !vxDo_outcome.
    + unfold target_name. cbn [name_of tl]. rewrite Heq. reflexivity.
    + cbn [name_of]. intros x Hx. inversion Hx. subst x. lia.
    + cbn [name_of]. intros x Hx. inversion Hx. subst x. exact Hfit.
  - rewrite (run_undefined _ _ _
               (vxDo_overrun P tbl (TString s :: rest) m e s eq_refl Hlong)).
    rewrite (run_undefined _ _ _
               (vxDo_overrun P tbl (TString s' :: rest) m e s' eq_refl
                  ltac:(lia))).
    reflexivity.
Qed.

(** A Lua string may hold NUL characters; the bridge reads the name as a C
    string, so whatever follows the first NUL plays no part: the call on
    the name with a NUL and more characters appended is the call on the
    name. *)
Theorem vxDo_name_ends_at_NUL (P : Platform) (tbl : SYMTAB)
        (s junk : string) (rest : list TValue) (m : Z -> Z) (e : list event) :
  run (l_ExecuteLuaCommand P tbl)
    (mkState (TString (c_str s ++ String NUL junk) :: rest) m e)
  = run (l_ExecuteLuaCommand P tbl) (mkState (TString (c_str s) :: rest) m e).
Proof.
  apply vxDo_depends_on_c_str.
  rewrite c_str_cut, c_str_idempotent. reflexivity.
Qed.

Example vxDo_name_with_NUL :
  run (l_ExecuteLuaCommand Target.platform Target.elf_table)
    (Target.start
       [TString ("add_two_ints" ++ String NUL "_no_such_suffix");
        Target.num 2; Target.num 3])
  = Returns [Target.num 5] Target.zeroed
      [EvSymFind "add_two_ints";
       EvInvoke Target.add_two_ints_addr
         [2; 3; 0; 0; 0; 0; 0; 0; 0; 0; 0; 0; 0; 0; 0]].
Proof. reflexivity. Qed.

(** ** The line reader *)

(** A prompt of at most 127 characters reaches the line reader whole, and
    the line read is returned as one string. *)
Theorem vxReadLine_short_prompt (P : Platform) (s : string)
        (rest : list TValue) (m : Z -> Z) (e : list event) :
  (strlen s <= 127)%nat ->
  run (l_vxReadLine P) (mkState (TString s :: rest) m e)
  = Returns [TString (c_str (sal_readline P (c_str s)))] m
      (e ++ [EvReadline (c_str s)]).
Proof.
  intros Hlen.
  pose proof (vxReadLine_run P (TString s :: rest) m e s eq_refl) as H.
  cbv zeta in H. rewrite string_prefix_short in H by exact Hlen.
  eapply run_one_result. exact H.
Qed.

Lemma vxReadLine_short_prompt_witness :
  (strlen "lua> " <= 127)%nat
  /\ run (l_vxReadLine Target.platform) (Target.start [TString "lua> "])
     = Returns [TString "print(1)"] Target.zeroed [EvReadline "lua> "].
Proof.
  split; [cbn; lia|].
  exact (vxReadLine_short_prompt Target.platform "lua> " [] Target.zeroed []
           ltac:(cbn; lia)).
Defined.

(** Without an argument [vxReadLine] returns nothing and does not read a
    line.  With a first argument that is neither a string nor a number,
    neither branch of the prologue assigns [error], and the test that
    follows reads it uninitialised. *)
Theorem vxReadLine_without_prompt (P : Platform) (v : TValue)
        (rest : list TValue) (m : Z -> Z) (e : list event) :
  ttype v <> LUA_TSTRING ->
  ttype v <> LUA_TNUMBER ->
  run (l_vxReadLine P) (mkState [] m e) = Returns [] m e
  /\ run (l_vxReadLine P) (mkState (v :: rest) m e) = Crashes UninitialisedRead.
Proof.
  intros Hs Hn. split; [reflexivity|].
  destruct v; cbn in Hs, Hn; try congruence; reflexivity.
Qed.

Lemma vxReadLine_without_prompt_witness :
  ttype TNil <> LUA_TSTRING
  /\ ttype TNil <> LUA_TNUMBER
  /\ run (l_vxReadLine Target.platform) (Target.start []) 
     = Returns [] Target.zeroed []
  /\ run (l_vxReadLine Target.platform) (Target.start [TNil])
     = Crashes UninitialisedRead.
Proof.
  split; [discriminate|]. split; [discriminate|].
  exact (vxReadLine_without_prompt Target.platform TNil [] Target.zeroed []
           ltac:(discriminate) ltac:(discriminate)).
Defined.

(** ** The engine's life cycle *)

Lemma closed_after_filter (p : Z) (l : list Z) :
  existsb (Z.eqb p) (filter (fun q => negb (q =? p)) l) = false.
Proof.
  induction l as [|q l IH]; [reflexivity|].
  cbn [filter]. destruct (q =? p) eqn:Hq; cbn [negb]; [exact IH|].
  cbn [existsb]. rewrite IH, Z.eqb_sym, Hq. reflexivity.
Qed.

Lemma open_after_filter (p q : Z) (l : list Z) :
  q <> p ->
  existsb (Z.eqb q) (filter (fun x => negb (x =? p)) l) = existsb (Z.eqb q) l.
Proof.
  intros Hne. induction l as [|x l IH]; [reflexivity|].
  cbn [filter existsb]. destruct (x =? p) eqn:Hx; cbn [negb].
  - apply Z.eqb_eq in Hx. subst x.
    apply Z.eqb_neq in Hne. rewrite Hne. exact IH.
  - cbn [existsb]. rewrite IH. reflexivity.
Qed.

Lemma filter_absent (p : Z) (l : list Z) :
  existsb (Z.eqb p) l = false -> filter (fun q => negb (q =? p)) l = l.
Proof.
  induction l as [|q l IH]; [reflexivity|].
  cbn [existsb filter]. intros H. apply orb_false_iff in H as [Hq Hl].
  rewrite Z.eqb_sym, Hq. cbn [negb]. rewrite IH by exact Hl. reflexivity.
Qed.

(** Simplifies a run of the engine functions on a host given by its
    fields. *)
Ltac engine :=
  unfold Engine.TSysStartLua, Engine.TSysStopLua, Engine.TSysRunLuaScript,
    Engine.lua_commands, Engine.luaL_openlibs, Engine.luaL_dofile,
    Engine.lua_close, Engine.printf;
  cbn [Engine.register_commands Engine.cmd_name Engine.cmd_wrapper];
  unfold Engine.lua_register, Engine.lua_open, Engine.use_state,
    Engine.is_open, Engine.get_luaVM, Engine.set_luaVM, Engine.act,
    Engine.hbind, Engine.hret;
  repeat (progress
            (cbn [Engine.luaVM Engine.open_states Engine.globals
                  Engine.actions existsb filter fst orb negb];
             rewrite ?Z.eqb_refl)).

(** The host a successful start leaves. *)
Lemma start_opened (h : Engine.host) (p : Z) :
  Engine.TSysStartLua (Some p) h
  = Engine.Ok tt
      (Engine.mkHost (Some p) (p :: Engine.open_states h)
         ([ (p, ("vxReadLine"%string, Some Engine.vxReadLine));
            (p, ("vxGet"%string, Some Engine.vxGet));
            (p, ("vxSet"%string, Some Engine.vxSet));
            (p, ("vxDo"%string, Some Engine.ExecuteLuaCommand));
            (p, ("myLuaFunction"%string, Some Engine.myLuaFunction)) ]
          ++ Engine.globals h)
         (Engine.actions h
          ++ [ Engine.AcOpen (Some p);
               Engine.AcOpenLibs p;
               Engine.AcRegister p "myLuaFunction" (Some Engine.myLuaFunction);
               Engine.AcRegister p "vxDo" (Some Engine.ExecuteLuaCommand);
               Engine.AcRegister p "vxSet" (Some Engine.vxSet);
               Engine.AcRegister p "vxGet" (Some Engine.vxGet);
               Engine.AcRegister p "vxReadLine" (Some Engine.vxReadLine) ])).
Proof.
  destruct h as [vm os gs acts].
  engine. repeat rewrite <- app_assoc. reflexivity.
Qed.

(** [TSysStartLua] tests [luaVM] for NULL only after [luaL_openlibs] has
    used it: when [lua_open] fails the start faults on the null state and
    the initialisation error is never printed.  When [lua_open] succeeds,
    [luaVM] holds the new state, the libraries are opened in it and the
    five commands of the table are registered in it, in the order of the
    table, the closing entry ending the loop. *)
Theorem TSysStartLua_outcome (h : Engine.host) :
  Engine.TSysStartLua None h = Engine.Fault Engine.NullState
  /\ forall p,
      Engine.TSysStartLua (Some p) h
      = Engine.Ok tt
          (Engine.mkHost (Some p) (p :: Engine.open_states h)
             ([ (p, ("vxReadLine"%string, Some Engine.vxReadLine));
                (p, ("vxGet"%string, Some Engine.vxGet));
                (p, ("vxSet"%string, Some Engine.vxSet));
                (p, ("vxDo"%string, Some Engine.ExecuteLuaCommand));
                (p, ("myLuaFunction"%string, Some Engine.myLuaFunction)) ]
              ++ Engine.globals h)
             (Engine.actions h
              ++ [ Engine.AcOpen (Some p);
                   Engine.AcOpenLibs p;
                   Engine.AcRegister p "myLuaFunction" (Some Engine.myLuaFunction);
                   Engine.AcRegister p "vxDo" (Some Engine.ExecuteLuaCommand);
                   Engine.AcRegister p "vxSet" (Some Engine.vxSet);
                   Engine.AcRegister p "vxGet" (Some Engine.vxGet);
                   Engine.AcRegister p "vxReadLine" (Some Engine.vxReadLine) ])).
Proof.
  split.
  - destruct h as [vm os gs acts]. reflexivity.
  - intros p. apply start_opened.
Qed.


(** Before any start [luaVM] is NULL: running a script only prints that
    Lua is not initialised, and stopping does nothing at all. *)
Theorem before_start (h : Engine.host) (path : string) :
  Engine.luaVM h = None ->
  Engine.TSysRunLuaScript path h
  = Engine.Ok tt
      (Engine.mkHost None (Engine.open_states h) (Engine.globals h)
         (Engine.actions h ++ [Engine.AcPrintf Engine.not_initialized]))
  /\ Engine.TSysStopLua h = Engine.Ok tt h.
Proof.
  destruct h as [vm os gs acts]. cbn [Engine.luaVM]. intros ->.
  split; reflexivity.
Qed.

Lemma before_start_witness :
  Engine.luaVM Engine.initial = None
  /\ Engine.TSysRunLuaScript "/c0/script.lua" Engine.initial
     = Engine.Ok tt
         (Engine.mkHost None [] [] [Engine.AcPrintf Engine.not_initialized])
  /\ Engine.TSysStopLua Engine.initial = Engine.Ok tt Engine.initial.
Proof.
  split; [reflexivity|].
  exact (before_start Engine.initial "/c0/script.lua" eq_refl).
Defined.

(** [TSysStopLua] closes the state but leaves [luaVM] pointing at it:
    after a stop, running a script and stopping again both use the closed
    state. *)
Theorem after_stop (h : Engine.host) (p : Z) (path : string) :
  Engine.luaVM h = Some p ->
  Engine.is_open h p = true ->
  exists h',
    Engine.TSysStopLua h = Engine.Ok tt h'
    /\ Engine.luaVM h' = Some p
    /\ Engine.is_open h' p = false
    /\ Engine.actions h' = Engine.actions h ++ [Engine.AcClose p]
    /\ Engine.TSysRunLuaScript path h' = Engine.Fault Engine.ClosedState
    /\ Engine.TSysStopLua h' = Engine.Fault Engine.ClosedState.
Proof.
  destruct h as [vm os gs acts]. unfold Engine.is_open.
  cbn [Engine.luaVM Engine.open_states]. intros -> Hopen.
  eexists. split.
  - engine. rewrite Hopen. engine. reflexivity.
  - cbn [Engine.luaVM Engine.actions]. unfold Engine.is_open.
    cbn [Engine.open_states].
    split; [reflexivity|]. split; [apply closed_after_filter|].
    split; [reflexivity|].
    split; engine; rewrite closed_after_filter; reflexivity.
Qed.

Lemma after_stop_witness :
  Engine.luaVM (Engine.mkHost (Some 305419896) [305419896] [] []) = Some 305419896
  /\ Engine.is_open (Engine.mkHost (Some 305419896) [305419896] [] [])
       305419896 = true
  /\ exists h',
      Engine.TSysStopLua (Engine.mkHost (Some 305419896) [305419896] [] [])
      = Engine.Ok tt h'
      /\ Engine.luaVM h' = Some 305419896
      /\ Engine.is_open h' 305419896 = false
      /\ Engine.actions h' = [] ++ [Engine.AcClose 305419896]
      /\ Engine.TSysRunLuaScript "/c0/script.lua" h'
         = Engine.Fault Engine.ClosedState
      /\ Engine.TSysStopLua h' = Engine.Fault Engine.ClosedState.
Proof.
  split; [reflexivity|]. split; [reflexivity|].
  exact (after_stop (Engine.mkHost (Some 305419896) [305419896] [] [])
           305419896 "/c0/script.lua" eq_refl eq_refl).
Defined.

(** A second start overwrites [luaVM] without closing the state it held:
    the first state stays open, and the stop that follows closes the second
    state only, after which nothing points at the first. *)
Theorem second_start_leaks (h : Engine.host) (p1 p2 : Z) :
  Engine.luaVM h = Some p1 ->
  Engine.is_open h p1 = true ->
  p2 <> p1 ->
  exists h' h'',
    Engine.TSysStartLua (Some p2) h = Engine.Ok tt h'
    /\ Engine.luaVM h' = Some p2
    /\ Engine.is_open h' p1 = true
    /\ Engine.TSysStopLua h' = Engine.Ok tt h''
    /\ Engine.luaVM h'' = Some p2
    /\ Engine.is_open h'' p2 = false
    /\ Engine.is_open h'' p1 = true.
Proof.
  intros Hvm Hopen Hne.
  destruct h as [vm os gs acts]. unfold Engine.is_open in *.
  cbn [Engine.luaVM Engine.open_states] in *. subst vm.
  assert (Hne' : (p1 =? p2) = false) by (apply Z.eqb_neq; congruence).
  eexists. eexists. split; [apply start_opened|].
  cbn [Engine.luaVM Engine.open_states].
  split; [reflexivity|].
  split; [cbn [existsb]; rewrite Hne', Hopen; reflexivity|].
  split; [engine; reflexivity|].
  cbn [Engine.luaVM Engine.open_states].
  split; [reflexivity|].
  split; [apply closed_after_filter|].
  rewrite open_after_filter by congruence. exact Hopen.
Qed.

Lemma second_start_leaks_witness :
  Engine.luaVM (Engine.mkHost (Some 4096) [4096] [] []) = Some 4096
  /\ Engine.is_open (Engine.mkHost (Some 4096) [4096] [] []) 4096 = true
  /\ 8192 <> 4096
  /\ exists h' h'',
      Engine.TSysStartLua (Some 8192) (Engine.mkHost (Some 4096) [4096] [] [])
      = Engine.Ok tt h'
      /\ Engine.luaVM h' = Some 8192
      /\ Engine.is_open h' 4096 = true
      /\ Engine.TSysStopLua h' = Engine.Ok tt h''
      /\ Engine.luaVM h'' = Some 8192
      /\ Engine.is_open h'' 8192 = false
      /\ Engine.is_open h'' 4096 = true.
Proof.
  split; [reflexivity|]. split; [reflexivity|]. split; [discriminate|].
  exact (second_start_leaks (Engine.mkHost (Some 4096) [4096] [] [])
           4096 8192 eq_refl eq_refl ltac:(discriminate)).
Defined.

(** Start, run a script, stop: from a host in which the state the
    allocator hands out is not open, the three calls go through, the
    script is run in the new state after the commands are registered, and
    at the end the open states and the globals of the other states are
    those of the beginning. *)
Theorem start_run_stop (h : Engine.host) (p : Z) (path : string) :
  Engine.is_open h p = false ->
  Engine.hbind (Engine.TSysStartLua (Some p))
    (fun _ => Engine.hbind (Engine.TSysRunLuaScript path)
                (fun _ => Engine.TSysStopLua)) h
  = Engine.Ok tt
      (Engine.mkHost (Some p) (Engine.open_states h)
         (filter (fun g => negb (fst g =? p)) (Engine.globals h))
         (Engine.actions h
          ++ [ Engine.AcOpen (Some p);
               Engine.AcOpenLibs p;
               Engine.AcRegister p "myLuaFunction" (Some Engine.myLuaFunction);
               Engine.AcRegister p "vxDo" (Some Engine.ExecuteLuaCommand);
               Engine.AcRegister p "vxSet" (Some Engine.vxSet);
               Engine.AcRegister p "vxGet" (Some Engine.vxGet);
               Engine.AcRegister p "vxReadLine" (Some Engine.vxReadLine);
               Engine.AcDoFile p path;
               Engine.AcClose p ])).
Proof.
  intros Hclosed. unfold Engine.hbind at 1. rewrite start_opened.
  destruct h as [vm os gs acts]. unfold Engine.is_open in Hclosed.
  cbn [Engine.open_states] in Hclosed.
  engine. cbn [app filter fst]. rewrite !Z.eqb_refl. cbn [negb].
  rewrite (filter_absent p os Hclosed).
  repeat rewrite <- app_assoc. reflexivity.
Qed.

Lemma start_run_stop_witness :
  Engine.is_open Engine.initial 4096 = false
  /\ Engine.hbind (Engine.TSysStartLua (Some 4096))
       (fun _ => Engine.hbind (Engine.TSysRunLuaScript "/c0/script.lua")
                   (fun _ => Engine.TSysStopLua)) Engine.initial
     = Engine.Ok tt
         (Engine.mkHost (Some 4096) [] []
            [ Engine.AcOpen (Some 4096);
              Engine.AcOpenLibs 4096;
              Engine.AcRegister 4096 "myLuaFunction" (Some Engine.myLuaFunction);
              Engine.AcRegister 4096 "vxDo" (Some Engine.ExecuteLuaCommand);
              Engine.AcRegister 4096 "vxSet" (Some Engine.vxSet);
              Engine.AcRegister 4096 "vxGet" (Some Engine.vxGet);
              Engine.AcRegister 4096 "vxReadLine" (Some Engine.vxReadLine);
              Engine.AcDoFile 4096 "/c0/script.lua";
              Engine.AcClose 4096 ]).
Proof.
  split; [reflexivity|].
  exact (start_run_stop Engine.initial 4096 "/c0/script.lua" eq_refl).
Defined.
